(** * think-tank: the debate data model, the memory manager and the runner

    A shallow embedding of [think_tank/schemas.py], [think_tank/memory.py]
    and the turn loop of [think_tank/runner.py], with the properties the
    specification states about them; then of the prompt and the reply
    parser of [think_tank/agent.py], of [think_tank/loader.py] and of
    [think_tank/cost.py], with further properties of the code.

    Conventions of the embedding:
    - a Python [int] is a [Z]; a local loop counter that only counts up from
      a literal is a [nat];
    - a Python [float] is an element of a type [F] with the operations the
      code uses ([Arith F]); every general statement is proved for all such
      [F], and evaluated at the exact rationals [Q] and at IEEE binary64
      ([PrimFloat.float]);
    - a [dict] read with [.get] is an association list in insertion order,
      a [dict] used as a table keyed by agent or claim id is a [gmap];
    - a dataclass is a record typed by its annotations;
    - an exception is a value of [exn] returned through [result];
    - the clock and the language model are arguments of the functions that
      consult them. *)

From Stdlib Require Import ZArith QArith String Ascii List Lia DecimalString.
From Stdlib Require Import Floats.PrimFloat Numbers.Cyclic.Int63.Uint63.
From stdpp Require Import gmap strings list fin_maps.

Set Warnings "-register-all".

Close Scope Q_scope.
Open Scope string_scope.
Open Scope list_scope.
Open Scope Z_scope.

(** ** Numbers *)

(** The arithmetic the code performs on floats: literals [0.0] and [1.0],
    [+], [-], [*], [/], and the conversion of an [int] operand. *)
Class Arith (F : Type) := {
  fzero : F;
  fone : F;
  fadd : F -> F -> F;
  fsub : F -> F -> F;
  fmul : F -> F -> F;
  fdiv : F -> F -> F;
  of_int : Z -> F;
}.

(** [x ** 2]. *)
Definition fsquare {F} `{Arith F} (x : F) : F := fmul x x.

(** The literal [0.7]: the quotient of two exactly represented integers is
    rounded once, to the binary64 number nearest to seven tenths, which is
    what the literal denotes. *)
Definition f0_7 {F} `{Arith F} : F := fdiv (of_int 7) (of_int 10).

(** [sum(xs)]: Python accumulates from the left, starting at [0]. *)
Definition fsum {F} `{Arith F} (xs : list F) : F := fold_left fadd xs fzero.

#[export] Instance Q_arith : Arith Q := {
  fzero := 0%Q;
  fone := 1%Q;
  fadd := Qplus;
  fsub := Qminus;
  fmul := Qmult;
  fdiv := Qdiv;
  of_int := inject_Z;
}.

(** The conversion is the exact one below [2^53] and the correctly rounded
    one below [2^63]; the counts of this program stay far below. *)
Definition float_of_int (z : Z) : float :=
  match z with
  | Z0 => PrimFloat.zero
  | Zpos _ => PrimFloat.of_uint63 (Uint63.of_Z z)
  | Zneg _ => PrimFloat.opp (PrimFloat.of_uint63 (Uint63.of_Z (- z)))
  end.

#[export] Instance binary64_arith : Arith float := {
  fzero := PrimFloat.zero;
  fone := PrimFloat.one;
  fadd := PrimFloat.add;
  fsub := PrimFloat.sub;
  fmul := PrimFloat.mul;
  fdiv := PrimFloat.div;
  of_int := float_of_int;
}.

(** ** Exceptions *)

Inductive exn :=
  | MissingArgument (cls arg : string)
      (* TypeError: __init__() missing 1 required positional argument *)
  | UnexpectedArgument (cls kw : string)
      (* TypeError: __init__() got an unexpected keyword argument *)
  | IllTyped (field : string).
      (* the dictionary holds, under [field], a value that is not of the
         type the dataclass annotates; it has no image in the records *)

Inductive result (A : Type) :=
  | Ok (a : A)
  | Raise (e : exn).
Arguments Ok {A} a.
Arguments Raise {A} e.

#[export] Instance result_ret : MRet result := fun A a => Ok a.
#[export] Instance result_bind : MBind result := fun A B k r =>
  match r with
  | Ok a => k a
  | Raise e => Raise e
  end.

(** A list comprehension whose element expression may raise: the first
    exception, in iteration order, ends it. *)
Fixpoint traverse {A B} (f : A -> result B) (l : list A) : result (list B) :=
  match l with
  | [] => Ok []
  | a :: l' => b ← f a; bs ← traverse f l'; Ok (b :: bs)
  end.

(** ** Dictionaries *)

Module Py.

Section Values.
Context {F : Type}.

Inductive value :=
  | VNone
  | VBool (b : bool)
  | VInt (z : Z)
  | VFloat (x : F)
  | VStr (s : string)
  | VList (l : list value)
  | VDict (d : list (string * value)).

Definition dict := list (string * value).

(** [d.get(k)] *)
Fixpoint get (d : dict) (k : string) : option value :=
  match d with
  | [] => None
  | (k', v) :: d' => if String.eqb k' k then Some v else get d' k
  end.

(** [d[k] = v]: an existing key keeps its place. *)
Fixpoint set (d : dict) (k : string) (v : value) : dict :=
  match d with
  | [] => [(k, v)]
  | (k', v') :: d' =>
      if String.eqb k' k then (k', v) :: d' else (k', v') :: set d' k v
  end.

Definition keys (d : dict) : list string := map fst d.

(** The readers of a typed field. *)
Definition as_str (field : string) (v : value) : result string :=
  match v with VStr s => Ok s | _ => Raise (IllTyped field) end.
Definition as_int (field : string) (v : value) : result Z :=
  match v with VInt z => Ok z | _ => Raise (IllTyped field) end.
Definition as_float (field : string) (v : value) : result F :=
  match v with VFloat x => Ok x | _ => Raise (IllTyped field) end.
Definition as_list (field : string) (v : value) : result (list value) :=
  match v with VList l => Ok l | _ => Raise (IllTyped field) end.
Definition as_dict (field : string) (v : value) : result dict :=
  match v with VDict d => Ok d | _ => Raise (IllTyped field) end.
Definition as_str_list (field : string) (v : value) : result (list string) :=
  l ← as_list field v; traverse (as_str field) l.

(** [d.get(k, default)] read at a typed field. *)
Definition get_or {A} (d : dict) (k : string)
    (read : string -> value -> result A) (dflt : A) : result A :=
  match get d k with
  | Some v => read k v
  | None => Ok dflt
  end.

Definition as_bool (field : string) (v : value) : result bool :=
  match v with VBool b => Ok b | _ => Raise (IllTyped field) end.
(** An [Optional[bool]] field. *)
Definition as_opt_bool (field : string) (v : value) : result (option bool) :=
  match v with
  | VNone => Ok None
  | VBool b => Ok (Some b)
  | _ => Raise (IllTyped field)
  end.

(** [{k: v for k, v in d.items() if k in fields}] *)
Definition restrict (fields : list string) (d : dict) : dict :=
  filter (fun kv => bool_decide (kv.1 ∈ fields)) d.

(** A keyword parameter of a generated [__init__] that has no default. When
    several are missing Python names them all in one [TypeError]; the model
    names the first in the order of the fields. *)
Definition required {A} (cls : string) (kw : dict) (k : string)
    (read : string -> value -> result A) : result A :=
  match get kw k with
  | Some v => read k v
  | None => Raise (MissingArgument cls k)
  end.
End Values.

Arguments value : clear implicits.
Arguments dict : clear implicits.

End Py.

Import Py.

(** ** schemas.py *)

Module Expert.
Record t := mk {
  id : string;
  name : string;
  title : string;
  background : string;
  bias : string;
  lens : string;
  domain : string;
}.

(** [f"{self.name} ({self.title})"] *)
Definition display_title (e : t) : string :=
  name e +:+ " (" +:+ title e +:+ ")".
End Expert.

Module Evidence.
Record t := mk {
  source : string;
  quote : string;
}.

Section Dict.
Context {F : Type}.

Definition asdict (e : t) : dict F :=
  [("source", VStr (source e)); ("quote", VStr (quote e))].

Definition to_dict (e : t) : dict F := asdict e.

(** The call of [Evidence] with the entries of [e] as keyword arguments:
    the generated [__init__], whose parameters are [source] and an optional
    [quote], refuses a keyword that is not a field, then a missing
    [source]. *)
Definition init (kw : dict F) : result t :=
  match filter (fun k => negb (bool_decide (k ∈ ["source"; "quote"]))) (keys kw) with
  | k :: _ => Raise (UnexpectedArgument "Evidence" k)
  | [] =>
      match get kw "source" with
      | None => Raise (MissingArgument "Evidence" "source")
      | Some v =>
          s ← as_str "source" v;
          q ← get_or kw "quote" as_str "";
          Ok (mk s q)
      end
  end.
End Dict.
End Evidence.

Module Claim.
Record t {F : Type} := mk {
  id : string;
  text : string;
  confidence : F;
  evidence : list Evidence.t;
  assumptions : list string;
  stance : string;
}.
Arguments t : clear implicits.

Section Dict.
Context {F : Type} `{Arith F}.

(** [dataclasses.asdict]: fields in declaration order, nested dataclasses
    and lists converted recursively. *)
Definition asdict (c : t F) : dict F :=
  [("id", VStr (id c));
   ("text", VStr (text c));
   ("confidence", VFloat (confidence c));
   ("evidence", VList (map (fun e => VDict (Evidence.asdict e)) (evidence c)));
   ("assumptions", VList (map VStr (assumptions c)));
   ("stance", VStr (stance c))].

Definition to_dict (c : t F) : dict F :=
  let d := asdict c in
  set d "evidence" (VList (map (fun e => VDict (Evidence.to_dict e)) (evidence c))).

(** The [Claim(...)] expression of [Move.from_dict], for one element [c] of
    [d.get("claims", [])]. *)
Definition of_dict (c : dict F) : result (t F) :=
  i ← get_or c "id" as_str "";
  tx ← get_or c "text" as_str "";
  cf ← get_or c "confidence" as_float f0_7;
  evs ← get_or c "evidence" as_list [];
  ev ← traverse (fun e => kw ← as_dict "evidence" e; Evidence.init kw) evs;
  asm ← get_or c "assumptions" as_str_list [];
  st ← get_or c "stance" as_str "neutral";
  Ok (mk F i tx cf ev asm st).
End Dict.
End Claim.

Module Move.
Record t {F : Type} := mk {
  move_id : string;
  agent_id : string;
  agent_title : string;
  round : Z;
  move_type : string;
  content : string;
  claims : list (Claim.t F);
  targets : list string;
  timestamp : string;
  input_tokens : Z;
  output_tokens : Z;
}.
Arguments t : clear implicits.

Section Dict.
Context {F : Type} `{Arith F}.

Definition asdict (m : t F) : dict F :=
  [("move_id", VStr (move_id m));
   ("agent_id", VStr (agent_id m));
   ("agent_title", VStr (agent_title m));
   ("round", VInt (round m));
   ("move_type", VStr (move_type m));
   ("content", VStr (content m));
   ("claims", VList (map (fun c => VDict (Claim.asdict c)) (claims m)));
   ("targets", VList (map VStr (targets m)));
   ("timestamp", VStr (timestamp m));
   ("input_tokens", VInt (input_tokens m));
   ("output_tokens", VInt (output_tokens m))].

Definition to_dict (m : t F) : dict F :=
  let d := asdict m in
  set d "claims" (VList (map (fun c => VDict (Claim.to_dict c)) (claims m))).

Definition from_dict (d : dict F) : result (t F) :=
  cs ← get_or d "claims" as_list [];
  claims ← traverse (fun c => c ← as_dict "claims" c; Claim.of_dict c) cs;
  mid ← get_or d "move_id" as_str "";
  aid ← get_or d "agent_id" as_str "";
  ati ← get_or d "agent_title" as_str "";
  rnd ← get_or d "round" as_int 0;
  mty ← get_or d "move_type" as_str "claim";
  cnt ← get_or d "content" as_str "";
  tgs ← get_or d "targets" as_str_list [];
  ts ← get_or d "timestamp" as_str "";
  itk ← get_or d "input_tokens" as_int 0;
  otk ← get_or d "output_tokens" as_int 0;
  Ok (mk F mid aid ati rnd mty cnt claims tgs ts itk otk).
End Dict.
End Move.

Module RoundSpec.
Record t := mk {
  number : Z;
  focus : string;
  question : string;
  agents : list string;
}.
End RoundSpec.

Module DebateSpec.
Record t := mk {
  title : string;
  context : string;
  rounds : list RoundSpec.t;
  synthesizer_prompt : string;
}.
End DebateSpec.

Module Panel.
Record t := mk {
  name : string;
  description : string;
  experts : list Expert.t;
}.

Definition get_expert (self : t) (expert_id : string) : option Expert.t :=
  find (fun e => String.eqb (Expert.id e) expert_id) (experts self).

Definition list_ids (self : t) : list string :=
  map Expert.id (experts self).
End Panel.

Module DebateState.
Record t {F : Type} := mk {
  spec_title : string;
  panel_name : string;
  model : string;
  synth_model : string;
  num_experts : Z;
  num_rounds : Z;
  moves : list (Move.t F);
  started_at : string;
  finished_at : string;
  total_input_tokens : Z;
  total_output_tokens : Z;
}.
Arguments t : clear implicits.

Section Dict.
Context {F : Type} `{Arith F}.

(** [sum(len(m.claims) for m in self.moves)] *)
Definition total_claims (s : t F) : Z :=
  fold_left (fun acc m => acc + Z.of_nat (length (Move.claims m))) (moves s) 0.

Definition to_dict (s : t F) : dict F :=
  [("spec_title", VStr (spec_title s));
   ("panel_name", VStr (panel_name s));
   ("model", VStr (model s));
   ("synth_model", VStr (synth_model s));
   ("num_experts", VInt (num_experts s));
   ("num_rounds", VInt (num_rounds s));
   ("total_moves", VInt (Z.of_nat (length (moves s))));
   ("total_claims", VInt (total_claims s));
   ("total_input_tokens", VInt (total_input_tokens s));
   ("total_output_tokens", VInt (total_output_tokens s));
   ("started_at", VStr (started_at s));
   ("finished_at", VStr (finished_at s));
   ("moves", VList (map (fun m => VDict (Move.to_dict m)) (moves s)))].

(** The constructor call leaves [moves] at its default, the empty list; the
    assignment [state.moves = [...]] follows. *)
Definition from_dict (d : dict F) : result (t F) :=
  st ← get_or d "spec_title" as_str "";
  pn ← get_or d "panel_name" as_str "";
  mo ← get_or d "model" as_str "";
  sm ← get_or d "synth_model" as_str "";
  ne ← get_or d "num_experts" as_int 0;
  nr ← get_or d "num_rounds" as_int 0;
  sa ← get_or d "started_at" as_str "";
  fa ← get_or d "finished_at" as_str "";
  ti ← get_or d "total_input_tokens" as_int 0;
  to ← get_or d "total_output_tokens" as_int 0;
  let state := mk F st pn mo sm ne nr [] sa fa ti to in
  ms ← get_or d "moves" as_list [];
  moves' ← traverse (fun m => m ← as_dict "moves" m; Move.from_dict m) ms;
  Ok (mk F (spec_title state) (panel_name state) (model state)
        (synth_model state) (num_experts state) (num_rounds state) moves'
        (started_at state) (finished_at state) (total_input_tokens state)
        (total_output_tokens state)).
End Dict.
End DebateState.

Module Lesson.
Record t {F : Type} := mk {
  id : string;
  text : string;
  source_debate : string;
  source_round : Z;
  category : string;
  confidence : F;
  created_at : string;
}.
Arguments t : clear implicits.

Section Dict.
Context {F : Type} `{Arith F}.

Definition fields : list string :=
  ["id"; "text"; "source_debate"; "source_round"; "category"; "confidence";
   "created_at"].

(** The default [0.8] of [confidence]. *)
Definition default_confidence : F := fdiv (of_int 8) (of_int 10).

Definition to_dict (l : t F) : dict F :=
  [("id", VStr (id l));
   ("text", VStr (text l));
   ("source_debate", VStr (source_debate l));
   ("source_round", VInt (source_round l));
   ("category", VStr (category l));
   ("confidence", VFloat (confidence l));
   ("created_at", VStr (created_at l))].

(** The generated [__init__], called with keyword arguments that are all
    fields; [now] is what the default factory of [created_at] reads off the
    clock. *)
Definition init (now : string) (kw : dict F) : result (t F) :=
  i ← required "Lesson" kw "id" as_str;
  tx ← required "Lesson" kw "text" as_str;
  sd ← required "Lesson" kw "source_debate" as_str;
  sr ← get_or kw "source_round" as_int 0;
  cat ← get_or kw "category" as_str "";
  cf ← get_or kw "confidence" as_float default_confidence;
  ca ← get_or kw "created_at" as_str now;
  Ok (mk F i tx sd sr cat cf ca).

Definition from_dict (now : string) (d : dict F) : result (t F) :=
  init now (restrict fields d).
End Dict.
End Lesson.

Module Forecast.
Record t {F : Type} := mk {
  id : string;
  text : string;
  probability : F;
  deadline : string;
  source_debate : string;
  source_claim_id : string;
  resolved : bool;
  outcome : option bool;
  resolved_at : string;
  created_at : string;
}.
Arguments t : clear implicits.

Section Score.
Context {F : Type} `{Arith F}.

Definition brier_score (f : t F) : option F :=
  if negb (resolved f) || bool_decide (outcome f = None) then None
  else
    let actual := if default false (outcome f) then fone else fzero in
    Some (fsquare (fsub (probability f) actual)).
End Score.

Section Dict.
Context {F : Type} `{Arith F}.

Definition fields : list string :=
  ["id"; "text"; "probability"; "deadline"; "source_debate";
   "source_claim_id"; "resolved"; "outcome"; "resolved_at"; "created_at"].

Definition asdict (f : t F) : dict F :=
  [("id", VStr (id f));
   ("text", VStr (text f));
   ("probability", VFloat (probability f));
   ("deadline", VStr (deadline f));
   ("source_debate", VStr (source_debate f));
   ("source_claim_id", VStr (source_claim_id f));
   ("resolved", VBool (resolved f));
   ("outcome", match outcome f with Some o => VBool o | None => VNone end);
   ("resolved_at", VStr (resolved_at f));
   ("created_at", VStr (created_at f))].

Definition to_dict (f : t F) : dict F :=
  let d := asdict f in
  set d "brier_score"
    (match brier_score f with Some x => VFloat x | None => VNone end).

Definition init (now : string) (kw : dict F) : result (t F) :=
  i ← required "Forecast" kw "id" as_str;
  tx ← required "Forecast" kw "text" as_str;
  pr ← required "Forecast" kw "probability" as_float;
  dl ← required "Forecast" kw "deadline" as_str;
  sd ← required "Forecast" kw "source_debate" as_str;
  sc ← get_or kw "source_claim_id" as_str "";
  rs ← get_or kw "resolved" as_bool false;
  oc ← get_or kw "outcome" as_opt_bool None;
  ra ← get_or kw "resolved_at" as_str "";
  ca ← get_or kw "created_at" as_str now;
  Ok (mk F i tx pr dl sd sc rs oc ra ca).

Definition from_dict (now : string) (d : dict F) : result (t F) :=
  let valid := restrict fields d in
  init now valid.
End Dict.
End Forecast.

Module ExpertPerformance.
Record t {F : Type} := mk {
  expert_id : string;
  debates_participated : Z;
  total_claims : Z;
  avg_confidence : F;
  challenges_received : Z;
  challenges_made : Z;
}.
Arguments t : clear implicits.

(** [ExpertPerformance(expert_id=eid)] *)
Definition new {F} `{Arith F} (eid : string) : t F :=
  mk F eid 0 0 fzero 0 0.

Section Dict.
Context {F : Type} `{Arith F}.

Definition fields : list string :=
  ["expert_id"; "debates_participated"; "total_claims"; "avg_confidence";
   "challenges_received"; "challenges_made"].

Definition to_dict (p : t F) : dict F :=
  [("expert_id", VStr (expert_id p));
   ("debates_participated", VInt (debates_participated p));
   ("total_claims", VInt (total_claims p));
   ("avg_confidence", VFloat (avg_confidence p));
   ("challenges_received", VInt (challenges_received p));
   ("challenges_made", VInt (challenges_made p))].

Definition init (kw : dict F) : result (t F) :=
  ei ← required "ExpertPerformance" kw "expert_id" as_str;
  dp ← get_or kw "debates_participated" as_int 0;
  tc ← get_or kw "total_claims" as_int 0;
  ac ← get_or kw "avg_confidence" as_float fzero;
  cr ← get_or kw "challenges_received" as_int 0;
  cm ← get_or kw "challenges_made" as_int 0;
  Ok (mk F ei dp tc ac cr cm).

Definition from_dict (d : dict F) : result (t F) :=
  let valid := restrict fields d in
  init valid.
End Dict.
End ExpertPerformance.

(** ** memory.py *)

Module Memory.

(** What a path of the memory directory holds: nothing
    ([os.path.exists] is false), a JSON array (decoded, record by record, by
    the class's [from_dict]), or a JSON document that is not an array. *)
Inductive file (A : Type) :=
  | NoFile
  | JsonList (l : list A)
  | JsonOther.
Arguments NoFile {A}.
Arguments JsonList {A} l.
Arguments JsonOther {A}.

(** [_load_json_list], behind the caller's [os.path.exists] test. *)
Definition load_json_list {A} (f : file A) : list A :=
  match f with
  | JsonList l => l
  | NoFile | JsonOther => []
  end.

(** The four files of a [MemoryManager]'s directory. [performance.json]
    holds a JSON object keyed by expert id. *)
Record t {F : Type} := mk {
  bootstrap_file : file (Lesson.t F);
  lessons_file : file (Lesson.t F);
  forecasts_file : file (Forecast.t F);
  performance_file : option (gmap string (ExpertPerformance.t F));
}.
Arguments t : clear implicits.

Definition newline : string := String (ascii_of_nat 10) EmptyString.

(** [l[-n:]] *)
Definition last_slice {A} (n : nat) (l : list A) : list A :=
  drop (length l - n) l.

Section Manager.
Context {F : Type} `{Arith F}.

Definition load_lessons (mm : t F) : list (Lesson.t F) :=
  let lessons := [] in
  let lessons :=
    match bootstrap_file mm with
    | NoFile => lessons
    | f => lessons ++ load_json_list f
    end in
  let lessons :=
    match lessons_file mm with
    | NoFile => lessons
    | f => lessons ++ load_json_list f
    end in
  lessons.

Definition save_lessons (lessons : list (Lesson.t F)) (mm : t F) : t F :=
  mk F (bootstrap_file mm) (JsonList lessons) (forecasts_file mm)
    (performance_file mm).

(** [f"- [{l.category}] {l.text}"] *)
Definition context_line (l : Lesson.t F) : string :=
  "- [" +:+ Lesson.category l +:+ "] " +:+ Lesson.text l.

Definition load_context (mm : t F) : string :=
  let lessons := load_lessons mm in
  match lessons with
  | [] => ""
  | _ => String.concat newline (map context_line (last_slice 20 lessons))
  end.

Definition load_forecasts (mm : t F) : list (Forecast.t F) :=
  match forecasts_file mm with
  | NoFile => []
  | f => load_json_list f
  end.

Definition save_forecasts (forecasts : list (Forecast.t F)) (mm : t F) : t F :=
  mk F (bootstrap_file mm) (lessons_file mm) (JsonList forecasts)
    (performance_file mm).


(** The three assignments of the loop body of [resolve_forecast]. *)
Definition resolved_with (now : string) (outcome : bool) (f : Forecast.t F)
    : Forecast.t F :=
  Forecast.mk F (Forecast.id f) (Forecast.text f) (Forecast.probability f)
    (Forecast.deadline f) (Forecast.source_debate f)
    (Forecast.source_claim_id f) true (Some outcome) now
    (Forecast.created_at f).

(** The loop of [resolve_forecast]: the first forecast with the id is
    updated in place, and [break] leaves the rest untouched. *)
Fixpoint resolve_first (now forecast_id : string) (outcome : bool)
    (forecasts : list (Forecast.t F)) : list (Forecast.t F) :=
  match forecasts with
  | [] => []
  | f :: rest =>
      if String.eqb (Forecast.id f) forecast_id
      then resolved_with now outcome f :: rest
      else f :: resolve_first now forecast_id outcome rest
  end.

(** [now] is the reading of [datetime.now().isoformat()]. *)
Definition resolve_forecast (now forecast_id : string) (outcome : bool)
    (mm : t F) : t F :=
  let forecasts := load_forecasts mm in
  save_forecasts (resolve_first now forecast_id outcome forecasts) mm.

Definition load_performance (mm : t F) : gmap string (ExpertPerformance.t F) :=
  match performance_file mm with
  | None => ∅
  | Some data => data
  end.

Definition save_performance (perf : gmap string (ExpertPerformance.t F))
    (mm : t F) : t F :=
  mk F (bootstrap_file mm) (lessons_file mm) (forecasts_file mm) (Some perf).

(** The first loop of [update_panel_performance]:
    [all_targets[target] = move.agent_id] over every target of every move. *)
Definition all_targets (moves : list (Move.t F)) : gmap string string :=
  fold_left
    (fun acc move =>
       fold_left (fun acc target => <[target := Move.agent_id move]> acc)
         (Move.targets move) acc)
    moves ∅.

(** The updates of one record [p] by one move, in the order of the source. *)
Definition update_record (targets : gmap string string) (move : Move.t F)
    (p : ExpertPerformance.t F) : ExpertPerformance.t F :=
  let debates := ExpertPerformance.debates_participated p + 1 in
  let n_claims := Z.of_nat (length (Move.claims move)) in
  let total_claims := ExpertPerformance.total_claims p + n_claims in
  let avg_confidence :=
    if 0 <? n_claims then
      let avg_conf :=
        fdiv (fsum (map Claim.confidence (Move.claims move))) (of_int n_claims) in
      let total := total_claims in
      let prev := total - n_claims in
      if 0 <? total then
        fdiv (fadd (fmul (ExpertPerformance.avg_confidence p) (of_int prev))
                (fmul avg_conf (of_int n_claims)))
          (of_int total)
      else ExpertPerformance.avg_confidence p
    else ExpertPerformance.avg_confidence p in
  let made :=
    ExpertPerformance.challenges_made p + Z.of_nat (length (Move.targets move)) in
  let received :=
    fold_left
      (fun acc claim =>
         if bool_decide (is_Some (targets !! Claim.id claim)) then acc + 1 else acc)
      (Move.claims move) (ExpertPerformance.challenges_received p) in
  ExpertPerformance.mk F (ExpertPerformance.expert_id p) debates total_claims
    avg_confidence received made.

(** One iteration of the second loop. *)
Definition update_move (targets : gmap string string)
    (perf : gmap string (ExpertPerformance.t F)) (move : Move.t F)
    : gmap string (ExpertPerformance.t F) :=
  if bool_decide (Move.move_type move ∈ ["error"; "synthesize"]) then perf
  else
    let eid := Move.agent_id move in
    let perf :=
      match perf !! eid with
      | None => <[eid := ExpertPerformance.new eid]> perf
      | Some _ => perf
      end in
    match perf !! eid with
    | Some p => <[eid := update_record targets move p]> perf
    | None => perf
    end.

Definition update_panel_performance (state : DebateState.t F) (mm : t F) : t F :=
  let perf := load_performance mm in
  let targets := all_targets (DebateState.moves state) in
  let perf := fold_left (update_move targets) (DebateState.moves state) perf in
  save_performance perf mm.

End Manager.

(** *** The JSON documents behind the files *)

Section Documents.
Context {F : Type} `{Arith F}.

(** [_load_json_list] on the document [json.load] returns: a list is
    decoded element by element with the class's [from_dict], anything else
    is an empty list. *)
Definition load_json_document {A : Type} (from_dict : dict F -> result A)
    (data : value F) : result (list A) :=
  match data with
  | VList l => traverse (fun d => d ← as_dict "item" d; from_dict d) l
  | _ => Ok []
  end.

(** The documents [save_lessons] and [save_forecasts] pass to
    [json.dump]. *)
Definition lessons_document (lessons : list (Lesson.t F)) : value F :=
  VList (map (fun l => VDict (Lesson.to_dict l)) lessons).

Definition forecasts_document (forecasts : list (Forecast.t F)) : value F :=
  VList (map (fun f => VDict (Forecast.to_dict f)) forecasts).

(** [{k: v.to_dict() for k, v in perf.items()}], and the comprehension of
    [load_performance] that reads it back. *)
Definition performance_document (perf : gmap string (ExpertPerformance.t F))
    : list (string * dict F) :=
  map (fun kv => (kv.1, ExpertPerformance.to_dict kv.2)) (map_to_list perf).

Definition load_performance_document (data : list (string * dict F))
    : result (gmap string (ExpertPerformance.t F)) :=
  entries ← traverse
              (fun kv => p ← ExpertPerformance.from_dict kv.2; Ok (kv.1, p))
              data;
  Ok (list_to_map entries).

End Documents.

(** *** The forecast report *)

Section Report.
Context {F : Type} `{Arith F}.

(** The format specs applied to floats: [.4f] and [.0%]. *)
Variable format_4f : F -> string.
Variable format_percent : F -> string.

Definition decimal (n : nat) : string :=
  NilEmpty.string_of_uint (Nat.to_uint n).

(** One line of the resolved section; [None] is the [TypeError] of
    formatting a missing score with [.4f]. *)
Definition resolved_line (f : Forecast.t F) : option string :=
  let outcome_str := if default false (Forecast.outcome f) then "YES" else "NO" in
  score ← Forecast.brier_score f;
  Some ("- [" +:+ format_4f score +:+ "] " +:+ Forecast.text f +:+
        " (predicted " +:+ format_percent (Forecast.probability f) +:+
        ", actual: " +:+ outcome_str +:+ ")").

Definition pending_line (f : Forecast.t F) : string :=
  "- " +:+ Forecast.text f +:+ " (predicted " +:+
  format_percent (Forecast.probability f) +:+ ", deadline: " +:+
  Forecast.deadline f +:+ ")".

(** [check_forecasts]; [None] when it raises. *)
Definition check_forecasts (mm : t F) : option string :=
  let forecasts := load_forecasts mm in
  match forecasts with
  | [] => Some "No forecasts recorded."
  | _ =>
      let lines := ["# Forecast Tracker" +:+ newline] in
      let resolved := filter (fun f => Forecast.resolved f = true) forecasts in
      let pending := filter (fun f => Forecast.resolved f = false) forecasts in
      lines ←
        match resolved with
        | [] => Some lines
        | _ =>
            let scores := omap Forecast.brier_score resolved in
            let avg_brier :=
              match scores with
              | [] => fzero
              | _ => fdiv (fsum scores) (of_int (Z.of_nat (length scores)))
              end in
            let lines :=
              lines ++ ["## Resolved (" +:+ decimal (length resolved) +:+ ")"] in
            let lines :=
              lines ++ ["**Average Brier Score**: " +:+ format_4f avg_brier +:+
                        " (0 = perfect, 1 = worst)" +:+ newline] in
            entries ← mapM resolved_line resolved;
            Some (lines ++ entries ++ [""])
        end;
      let lines :=
        match pending with
        | [] => lines
        | _ =>
            lines ++ ["## Pending (" +:+ decimal (length pending) +:+ ")"]
            ++ map pending_line pending
        end in
      Some (String.concat newline lines)
  end.

End Report.
End Memory.

(** ** agent.py *)

Module DebateAgent.
Record t := mk {
  expert : Expert.t;
  model : string;
  is_synthesizer : bool;
}.

Definition agent_id (self : t) : string := Expert.id (expert self).

(** The double quote, and a text between double quotes. *)
Definition dq : string := String (ascii_of_nat 34) EmptyString.
Definition quoted (s : string) : string := dq +:+ s +:+ dq.

(** [f"{n}"] for an [int]. *)
Definition format_int (n : Z) : string := NilEmpty.string_of_int (Z.to_int n).

(** The truth value of a [str]. *)
Definition nonempty (s : string) : bool :=
  match s with
  | EmptyString => false
  | String _ _ => true
  end.

Definition DEFAULT_SYNTHESIS_PROMPT : string :=
  "Produce the FINAL SYNTHESIS as a comprehensive Markdown document. " +:+
  "Be concrete — specific recommendations, specific timelines, " +:+
  "specific evidence. This is the final output.".

(** The instructions an expert's prompt ends with; only the claim id is
    formatted. *)
Definition RESPONSE_FORMAT (move_id : string) : string :=
  String.concat Memory.newline
    ["Respond with a JSON object containing:";
     "```json";
     "{";
     "  " +:+ quoted "move_type" +:+ ": " +:+ quoted "claim" +:+ " | " +:+
       quoted "object" +:+ " | " +:+ quoted "defend" +:+ ",";
     "  " +:+ quoted "content" +:+ ": " +:+
       quoted "Your main analysis (500-1000 words)" +:+ ",";
     "  " +:+ quoted "claims" +:+ ": [";
     "    {";
     "      " +:+ quoted "id" +:+ ": " +:+ quoted (move_id +:+ "_C1") +:+ ",";
     "      " +:+ quoted "text" +:+ ": " +:+
       quoted "Specific, falsifiable claim" +:+ ",";
     "      " +:+ quoted "confidence" +:+ ": 0.0-1.0,";
     "      " +:+ quoted "evidence" +:+ ": [{" +:+ quoted "source" +:+ ": " +:+
       quoted "..." +:+ ", " +:+ quoted "quote" +:+ ": " +:+ quoted "..." +:+
       "}],";
     "      " +:+ quoted "assumptions" +:+ ": [" +:+ quoted "..." +:+ "],";
     "      " +:+ quoted "stance" +:+ ": " +:+ quoted "pro" +:+ " | " +:+
       quoted "contra" +:+ " | " +:+ quoted "neutral";
     "    }";
     "  ],";
     "  " +:+ quoted "targets" +:+ ": [" +:+
       quoted "claim_id to challenge, if any" +:+ "]";
     "}";
     "```";
     "Provide 3-6 claims per move. Be specific and evidence-based."].

Section Prompt.
Context {F : Type}.

(** The format spec [.2f] of a float. *)
Variable format_2f : F -> string.

(** The parts one prior move adds to the prompt. *)
Definition move_parts (m : Move.t F) : list string :=
  [Memory.newline +:+ "## [" +:+ Move.agent_title m +:+ "] Round " +:+
     format_int (Move.round m) +:+ " — " +:+ Move.move_type m;
   substring 0 1500 (Move.content m)] ++
  match Move.claims m with
  | [] => []
  | _ =>
      map (fun c => "  - [" +:+ format_2f (Claim.confidence c) +:+ "] " +:+
                    substring 0 250 (Claim.text c))
          (take 4 (Move.claims m))
  end.

(** [_build_user_prompt]; the slice [prior_moves[-limit:]] is taken of a
    list that is not empty, so that [limit] is positive. *)
Definition build_user_prompt (self : t) (round_spec : RoundSpec.t)
    (problem_context : string) (prior_moves : list (Move.t F))
    (move_id memory_context synthesizer_prompt : string) : string :=
  let parts := [problem_context] in
  let parts :=
    if nonempty memory_context then
      parts ++ [Memory.newline +:+ "# LESSONS FROM PRIOR DEBATES" +:+
                Memory.newline +:+ memory_context]
    else parts in
  let parts :=
    match prior_moves with
    | [] => parts
    | _ =>
        let parts :=
          parts ++ [Memory.newline +:+ "# PRIOR DEBATE MOVES" +:+ Memory.newline] in
        let limit :=
          if is_synthesizer self then length prior_moves else 6%nat in
        fold_left (fun parts m => parts ++ move_parts m)
          (drop (length prior_moves - limit) prior_moves) parts
    end in
  let parts :=
    parts ++ [Memory.newline +:+ "# ROUND " +:+
              format_int (RoundSpec.number round_spec) +:+ ": " +:+
              RoundSpec.focus round_spec +:+ Memory.newline] in
  let parts :=
    parts ++ ["**Question**: " +:+ RoundSpec.question round_spec +:+
              Memory.newline] in
  let parts :=
    if is_synthesizer self then
      let prompt :=
        if nonempty synthesizer_prompt then synthesizer_prompt
        else DEFAULT_SYNTHESIS_PROMPT in
      parts ++ [prompt]
    else parts ++ [RESPONSE_FORMAT move_id] in
  String.concat Memory.newline parts.

End Prompt.

(** The exceptions of [_parse_response] that its [except] clause does not
    name. *)
Inductive uncaught :=
  | AttributeError
  | TypeError
  | OverflowError.

(** What an expression of the [try] block does. It gives a value; [typed]
    is false when Python holds, in a field read so far, a value that is not
    of the annotated type, which the record cannot show. Or it raises an
    exception the clause catches ([ValueError], of which [JSONDecodeError]
    is a kind), or one that escapes. *)
Inductive attempt (A : Type) :=
  | Value (a : A) (typed : bool)
  | Handled
  | Escapes (e : uncaught).
Arguments Value {A} a typed.
Arguments Handled {A}.
Arguments Escapes {A} e.

#[global] Instance attempt_ret : MRet attempt := fun A a => Value a true.
#[global] Instance attempt_bind : MBind attempt := fun A B k r =>
  match r with
  | Value a typed =>
      match k a with
      | Value b typed' => Value b (typed && typed')
      | Handled => Handled
      | Escapes e => Escapes e
      end
  | Handled => Handled
  | Escapes e => Escapes e
  end.

Section Parse.
Context {F : Type} `{Arith F}.

(** [json.loads], [None] when it raises [JSONDecodeError]; [float] of a
    string, [None] when it raises [ValueError]; [float] of an [int], [None]
    when the integer is beyond the floats and it raises [OverflowError];
    [str.strip]. *)
Variable json_loads : string -> option (value F).
Variable float_of_string : string -> option F.
Variable float_of_int : Z -> option F.
Variable strip : string -> string.

(** [d.get(k, default)] *)
Definition get_default (d : dict F) (k : string) (default : value F) : value F :=
  match get d k with
  | Some v => v
  | None => default
  end.

(** The receiver of a [.get]. *)
Definition as_mapping (v : value F) : attempt (dict F) :=
  match v with
  | VDict d => Value d true
  | _ => Escapes AttributeError
  end.

(** The elements a [for] loop draws: the items of a list, the keys of a
    dictionary, the characters of a string. *)
Definition iterate (v : value F) : attempt (list (value F)) :=
  match v with
  | VList l => Value l true
  | VDict d => Value (map VStr (keys d)) true
  | VStr s => Value (map (fun c => VStr (String c EmptyString)) (list_ascii_of_string s)) true
  | VNone | VBool _ | VInt _ | VFloat _ => Escapes TypeError
  end.

Definition str_field (v : value F) : attempt string :=
  match v with
  | VStr s => Value s true
  | _ => Value "" false
  end.

Definition str_list_field (v : value F) : attempt (list string) :=
  match v with
  | VList l => mapM str_field l
  | _ => Value [] false
  end.

(** [float(v)] *)
Definition to_float (v : value F) : attempt F :=
  match v with
  | VFloat x => Value x true
  | VInt z =>
      match float_of_int z with
      | Some x => Value x true
      | None => Escapes OverflowError
      end
  | VBool b => Value (if b then fone else fzero) true
  | VStr s =>
      match float_of_string s with
      | Some x => Value x true
      | None => Handled
      end
  | VNone | VList _ | VDict _ => Escapes TypeError
  end.

Definition evidence_of (e : value F) : attempt Evidence.t :=
  e ← as_mapping e;
  source ← str_field (get_default e "source" (VStr ""));
  quote ← str_field (get_default e "quote" (VStr ""));
  mret (Evidence.mk source quote).

(** The body of the loop over [data.get("claims", [])]. *)
Definition claim_of (c : value F) : attempt (Claim.t F) :=
  c ← as_mapping c;
  es ← iterate (get_default c "evidence" (VList []));
  evidence ← mapM evidence_of es;
  id ← str_field (get_default c "id" (VStr ""));
  text ← str_field (get_default c "text" (VStr ""));
  confidence ← to_float (get_default c "confidence" (VFloat f0_7));
  assumptions ← str_list_field (get_default c "assumptions" (VList []));
  stance ← str_field (get_default c "stance" (VStr "neutral"));
  mret (Claim.mk F id text confidence evidence assumptions stance).

(** [text.index(sub, start)], [None] when it raises [ValueError]. *)
Definition index_from (sub : string) (start : nat) (text : string) : option nat :=
  String.index start sub text.

(** The text handed to [json.loads]: what stands between the first
    [```json] fence, or else the first [```] fence, and the next fence,
    stripped; the whole text when it has no fence. [None] when the closing
    fence is missing. *)
Definition json_text (text : string) : option string :=
  match index_from "```json" 0 text with
  | Some i =>
      let start := (i + 7)%nat in
      end_ ← index_from "```" start text;
      Some (strip (substring start (end_ - start) text))
  | None =>
      match index_from "```" 0 text with
      | Some i =>
          let start := (i + 3)%nat in
          end_ ← index_from "```" start text;
          Some (strip (substring start (end_ - start) text))
      | None => Some text
      end
  end.

(** The [try] block of [_parse_response]. *)
Definition parse_json (self : t) (text move_id : string) (round_num : Z)
    (now : string) : attempt (Move.t F) :=
  match json_text text with
  | None => Handled
  | Some json_text =>
      match json_loads json_text with
      | None => Handled
      | Some data =>
          data ← as_mapping data;
          cs ← iterate (get_default data "claims" (VList []));
          claims ← mapM claim_of cs;
          move_type ← str_field (get_default data "move_type" (VStr "claim"));
          content ← str_field
                      (get_default data "content" (VStr (substring 0 2000 text)));
          targets ← str_list_field (get_default data "targets" (VList []));
          mret (Move.mk F move_id (agent_id self)
                  (Expert.display_title (expert self)) round_num move_type
                  content claims targets now 0 0)
      end
  end.

(** [_parse_response]; [now] is the clock reading the default timestamp of
    the move takes. *)
Definition parse_response (self : t) (text move_id : string) (round_num : Z)
    (now : string) : attempt (Move.t F) :=
  if is_synthesizer self then
    Value (Move.mk F move_id (agent_id self) "Debate Synthesizer" round_num
             "synthesize" text [] [] now 0 0) true
  else
    match parse_json self text move_id round_num now with
    | Handled =>
        Value (Move.mk F move_id (agent_id self)
                 (Expert.display_title (expert self)) round_num "claim"
                 (substring 0 3000 text) [] [] now 0 0) true
    | r => r
    end.

End Parse.
End DebateAgent.

(** ** runner.py *)

Module Runner.

Definition SYNTHESIZER_EXPERT : Expert.t :=
  Expert.mk "synthesizer" "Synthesis Engine" "Debate Synthesizer"
    "Neutral facilitator that consolidates all expert contributions."
    "" "" "".

(** The fields of a [DebateRunner] the turn loop reads. [memory_context] is
    what [run] loaded from the memory manager, the empty string without
    one. *)
Record t := mk {
  spec : DebateSpec.t;
  panel : Panel.t;
  model : string;
  synth_model : string;
  memory_context : string;
}.

(** [self.agents]: one agent per expert of the panel, in order, then the
    synthesizer under its reserved id. *)
Definition agents (self : t) : gmap string DebateAgent.t :=
  let by_id :=
    fold_left
      (fun acc expert =>
         <[Expert.id expert := DebateAgent.mk expert (model self) false]> acc)
      (Panel.experts (panel self)) ∅ in
  <["synthesizer" := DebateAgent.mk SYNTHESIZER_EXPERT (synth_model self) true]> by_id.

(** [str.zfill]-like padding of the format specs [03d] and [02d]. *)
Definition zero_pad (width : nat) (s : string) : string :=
  String.concat "" (repeat "0" (width - String.length s)%nat) +:+ s.

Definition decimal (n : nat) : string :=
  NilEmpty.string_of_uint (Nat.to_uint n).

(** [f"M{move_counter:03d}"] *)
Definition format_move_id (move_counter : nat) : string :=
  "M" +:+ zero_pad 3 (decimal move_counter).

(** What a call of [agent.make_move] does: it returns a move, or raises an
    [Exception] whose [str] is [msg]. *)
Inductive outcome {F : Type} :=
  | Returned (move : Move.t F)
  | Raised (msg : string).
Arguments outcome : clear implicits.

Section Run.
Context {F : Type} `{Arith F}.

(** The language model behind [DebateAgent.make_move], as a function of the
    arguments [run] passes: the agent, the round, the problem context, the
    prior moves, the move id, the memory context, the synthesizer prompt. *)
Variable make_move :
  DebateAgent.t -> RoundSpec.t -> string -> list (Move.t F) -> string ->
  string -> string -> outcome F.

(** Writing the per-move file [move_NN_RY_agent.json], inside the same
    [try]: [None] when written, [Some msg] when [open] or [json.dump]
    raises. *)
Variable write_move_file : nat -> Z -> string -> Move.t F -> option string.

(** The clock: its reading when [run] starts, when the error move of turn
    [n] is built, and when [run] finalises the state. *)
Variable started : string.
Variable error_time : nat -> string.
Variable finished : string.

Definition with_moves (state : DebateState.t F) (moves : list (Move.t F))
    : DebateState.t F :=
  DebateState.mk F (DebateState.spec_title state) (DebateState.panel_name state)
    (DebateState.model state) (DebateState.synth_model state)
    (DebateState.num_experts state) (DebateState.num_rounds state) moves
    (DebateState.started_at state) (DebateState.finished_at state)
    (DebateState.total_input_tokens state)
    (DebateState.total_output_tokens state).

Definition add_tokens (state : DebateState.t F) (move : Move.t F)
    : DebateState.t F :=
  DebateState.mk F (DebateState.spec_title state) (DebateState.panel_name state)
    (DebateState.model state) (DebateState.synth_model state)
    (DebateState.num_experts state) (DebateState.num_rounds state)
    (DebateState.moves state)
    (DebateState.started_at state) (DebateState.finished_at state)
    (DebateState.total_input_tokens state + Move.input_tokens move)
    (DebateState.total_output_tokens state + Move.output_tokens move).

(** [state.moves.append(move)] *)
Definition append_move (state : DebateState.t F) (move : Move.t F)
    : DebateState.t F :=
  with_moves state (DebateState.moves state ++ [move]).

(** The [Move(...)] of the [except] branch; the fields it does not name take
    the dataclass defaults. *)
Definition error_move (move_counter : nat) (move_id agent_id title : string)
    (rnd : RoundSpec.t) (e : string) : Move.t F :=
  Move.mk F move_id agent_id title (RoundSpec.number rnd) "error"
    ("Agent error: " +:+ e) [] [] (error_time move_counter) 0 0.

(** The body of [for agent_id in rnd.agents], on the pair of the state and
    [move_counter]. *)
Definition turn (self : t) (rnd : RoundSpec.t)
    (acc : DebateState.t F * nat) (agent_id : string)
    : DebateState.t F * nat :=
  let '(state, move_counter) := acc in
  match agents self !! agent_id with
  | None => (state, move_counter)
  | Some agent =>
      let move_id := format_move_id move_counter in
      let title := Expert.display_title (DebateAgent.expert agent) in
      let state :=
        match make_move agent rnd (DebateSpec.context (spec self))
                (DebateState.moves state) move_id (memory_context self)
                (DebateSpec.synthesizer_prompt (spec self)) with
        | Returned move =>
            let state := add_tokens (append_move state move) move in
            match write_move_file move_counter (RoundSpec.number rnd) agent_id move with
            | None => state
            | Some e =>
                append_move state
                  (error_move move_counter move_id agent_id title rnd e)
            end
        | Raised e =>
            append_move state
              (error_move move_counter move_id agent_id title rnd e)
        end in
      (state, S move_counter)
  end.

Definition run_agents (self : t) (rnd : RoundSpec.t) (agent_ids : list string)
    (acc : DebateState.t F * nat) : DebateState.t F * nat :=
  fold_left (turn self rnd) agent_ids acc.

(** The body of [for rnd in self.spec.rounds]. *)
Definition run_round (self : t) (acc : DebateState.t F * nat)
    (rnd : RoundSpec.t) : DebateState.t F * nat :=
  run_agents self rnd (RoundSpec.agents rnd) acc.

Definition run_rounds (self : t) (rounds : list RoundSpec.t)
    (acc : DebateState.t F * nat) : DebateState.t F * nat :=
  fold_left (run_round self) rounds acc.

Definition initial_state (self : t) : DebateState.t F :=
  DebateState.mk F (DebateSpec.title (spec self)) (Panel.name (panel self))
    (model self) (synth_model self)
    (Z.of_nat (length (Panel.experts (panel self))))
    (Z.of_nat (length (DebateSpec.rounds (spec self))))
    [] started "" 0 0.

Definition finalize (state : DebateState.t F) : DebateState.t F :=
  DebateState.mk F (DebateState.spec_title state) (DebateState.panel_name state)
    (DebateState.model state) (DebateState.synth_model state)
    (DebateState.num_experts state) (DebateState.num_rounds state)
    (DebateState.moves state)
    (DebateState.started_at state) finished
    (DebateState.total_input_tokens state)
    (DebateState.total_output_tokens state).

(** [run], up to the state it returns; the artifacts written after the
    loop do not change it. *)
Definition run (self : t) : DebateState.t F :=
  let state := initial_state self in
  let move_counter := 1%nat in
  let '(state, _) :=
    run_rounds self (DebateSpec.rounds (spec self)) (state, move_counter) in
  finalize state.

End Run.
End Runner.

(** ** loader.py *)

Module Loader.

(** [str] of an [int], as an f-string inserts it. *)
Definition str_int (z : Z) : string := NilEmpty.string_of_int (Z.to_int z).

Definition str_len (n : nat) : string := NilEmpty.string_of_uint (Nat.to_uint n).

(** The message of one warning. *)
Definition warning (rnd : RoundSpec.t) (agent_id : string) (panel : Panel.t)
    (panel_ids : gset string) : string :=
  "Round " +:+ str_int (RoundSpec.number rnd) +:+ ": agent '" +:+ agent_id +:+
  "' not found in panel '" +:+ Panel.name panel +:+ "' (available: " +:+
  str_len (size panel_ids) +:+ " experts)".

Definition validate_spec_against_panel (spec : DebateSpec.t) (panel : Panel.t)
    : list string :=
  let panel_ids : gset string := list_to_set (Panel.list_ids panel) in
  fold_left
    (fun warnings rnd =>
       fold_left
         (fun warnings agent_id =>
            if String.eqb agent_id "synthesizer" then warnings
            else if bool_decide (agent_id ∉ panel_ids)
                 then warnings ++ [warning rnd agent_id panel panel_ids]
                 else warnings)
         (RoundSpec.agents rnd) warnings)
    (DebateSpec.rounds spec) [].

Section Yaml.
Context {F : Type}.

(** The loop of [load_spec] over [data.get("rounds", [])]: a round without
    a [number] takes its position in the list being built, counted from
    one. *)
Definition load_round (rounds : list RoundSpec.t) (r : value F)
    : result (list RoundSpec.t) :=
  r ← as_dict "rounds" r;
  number ← get_or r "number" as_int (Z.of_nat (length rounds) + 1);
  focus ← get_or r "focus" as_str "";
  question ← get_or r "question" as_str "";
  agents ← get_or r "agents" as_str_list [];
  Ok (rounds ++ [RoundSpec.mk number focus question agents]).

(** [load_spec], from the mapping [yaml.safe_load] returned; [stem] is the
    file name without its suffix. *)
Definition load_spec (stem : string) (data : dict F) : result DebateSpec.t :=
  title ← get_or data "title" as_str stem;
  context ← get_or data "context" as_str "";
  synth_prompt ← get_or data "synthesizer_prompt" as_str "";
  rs ← get_or data "rounds" as_list [];
  rounds ← fold_left (fun acc r => rounds ← acc; load_round rounds r) rs (Ok []);
  Ok (DebateSpec.mk title context rounds synth_prompt).
End Yaml.

End Loader.

(** ** cost.py *)

Module Cost.

Definition AVG_SYSTEM_PROMPT_TOKENS : Z := 300.
Definition AVG_PROBLEM_CONTEXT_TOKENS : Z := 2000.
Definition AVG_PRIOR_MOVES_TOKENS : Z := 1500.
Definition AVG_ROUND_PROMPT_TOKENS : Z := 200.
Definition AVG_OUTPUT_TOKENS : Z := 1200.

(** One entry of the estimate's [rounds] list. *)
Record round_detail := mk_detail {
  detail_round : Z;
  detail_focus : string;
  detail_agents : Z;
  detail_is_synthesis : bool;
}.

(** The variables of the loop of [estimate_cost]. *)
Record tally := mk_tally {
  rounds_detail : list round_detail;
  total_input : Z;
  total_output : Z;
  total_synth_input : Z;
  total_synth_output : Z;
}.

Definition estimate_round (acc : tally) (rnd : RoundSpec.t) : tally :=
  let is_synth := bool_decide (RoundSpec.agents rnd = ["synthesizer"]) in
  let n_agents := Z.of_nat (length (RoundSpec.agents rnd)) in
  let detail :=
    mk_detail (RoundSpec.number rnd) (RoundSpec.focus rnd) n_agents is_synth in
  if is_synth then
    let input_est :=
      AVG_SYSTEM_PROMPT_TOKENS + AVG_PROBLEM_CONTEXT_TOKENS + total_output acc
      + AVG_ROUND_PROMPT_TOKENS in
    let output_est := AVG_OUTPUT_TOKENS * 3 in
    mk_tally (rounds_detail acc ++ [detail]) (total_input acc) (total_output acc)
      (total_synth_input acc + input_est) (total_synth_output acc + output_est)
  else
    let input_per_agent :=
      AVG_SYSTEM_PROMPT_TOKENS + AVG_PROBLEM_CONTEXT_TOKENS
      + AVG_PRIOR_MOVES_TOKENS + AVG_ROUND_PROMPT_TOKENS in
    let output_per_agent := AVG_OUTPUT_TOKENS in
    mk_tally (rounds_detail acc ++ [detail])
      (total_input acc + input_per_agent * n_agents)
      (total_output acc + output_per_agent * n_agents)
      (total_synth_input acc) (total_synth_output acc).

Definition estimate_tally (spec : DebateSpec.t) : tally :=
  fold_left estimate_round (DebateSpec.rounds spec) (mk_tally [] 0 0 0 0).


Section Prices.
Context {F : Type} `{Arith F}.

(** [round(x, ndigits)] *)
Variable round_to : nat -> F -> F.

Definition MODEL_PRICING : list (string * (F * F)) :=
  [("claude-sonnet-4-6", (of_int 3, of_int 15));
   ("claude-opus-4-6", (of_int 15, of_int 75));
   ("claude-haiku-4-5-20251001", (fdiv (of_int 8) (of_int 10), of_int 4))].

(** [MODEL_PRICING.get(model, default)] *)
Definition price (model : string) (default : F * F) : F * F :=
  match find (fun entry => String.eqb entry.1 model) MODEL_PRICING with
  | Some entry => entry.2
  | None => default
  end.

(** [(tokens_in / 1_000_000) * price[0] + (tokens_out / 1_000_000) * price[1]] *)
Definition cost_of (tokens_in tokens_out : Z) (p : F * F) : F :=
  fadd (fmul (fdiv (of_int tokens_in) (of_int 1000000)) p.1)
       (fmul (fdiv (of_int tokens_out) (of_int 1000000)) p.2).

(** The dictionary [estimate_cost] returns. *)
Record estimate := mk_estimate {
  est_model : string;
  est_synth_model : string;
  total_rounds : Z;
  total_api_calls : Z;
  estimated_input_tokens : Z;
  estimated_output_tokens : Z;
  estimated_agent_cost_usd : F;
  estimated_synth_cost_usd : F;
  estimated_total_cost_usd : F;
  rounds : list round_detail;
}.

Definition estimate_cost (spec : DebateSpec.t) (model synth_model : string)
    : estimate :=
  let acc := estimate_tally spec in
  let model_price := price model (of_int 3, of_int 15) in
  let synth_price := price synth_model (of_int 15, of_int 75) in
  let agent_cost := cost_of (total_input acc) (total_output acc) model_price in
  let synth_cost :=
    cost_of (total_synth_input acc) (total_synth_output acc) synth_price in
  let total_api_calls :=
    fold_left (fun n r => n + Z.of_nat (length (RoundSpec.agents r)))
      (DebateSpec.rounds spec) 0 in
  mk_estimate model synth_model
    (Z.of_nat (length (DebateSpec.rounds spec)))
    total_api_calls
    (total_input acc + total_synth_input acc)
    (total_output acc + total_synth_output acc)
    (round_to 2 agent_cost) (round_to 2 synth_cost)
    (round_to 2 (fadd agent_cost synth_cost))
    (rounds_detail acc).



(** The dictionary [compute_actual_cost] returns. *)
Record actual := mk_actual {
  act_model : string;
  act_synth_model : string;
  agent_input_tokens : Z;
  agent_output_tokens : Z;
  synth_input_tokens : Z;
  synth_output_tokens : Z;
  agent_cost_usd : F;
  synth_cost_usd : F;
  total_cost_usd : F;
}.


End Prices.
End Cost.

(** * What the statements are written with

    Definitions that follow the words of the specification, and the data
    of the repository's tests. *)

(** *** Numbers *)

(** The decimal literal [n/d]: the quotient of two integers, rounded once. *)
Definition fdec {F : Type} `{Arith F} (n d : Z) : F := fdiv (of_int n) (of_int d).

(** [abs(x - y) < 1e-6], the comparison of the repository's tests, in
    binary64. *)
Definition close_to (x y : float) : bool :=
  PrimFloat.ltb (PrimFloat.abs (PrimFloat.sub x y)) (fdec 1 1000000).

Definition score_close_to (score : option float) (y : float) : bool :=
  match score with
  | Some x => close_to x y
  | None => false
  end.

(** *** The data model *)

(** The forecast of the repository's tests, with the fields a test varies. *)
Definition test_forecast {F : Type} (probability : F) (resolved : bool)
    (outcome : option bool) : Forecast.t F :=
  Forecast.mk F "F1" "Test" probability "2026-06-01" "Test" "" resolved
    outcome "" "2026-01-01T00:00:00".

(** A move dictionary whose only claim cites one piece of evidence that
    has a quote and no source. *)
Definition sourceless_evidence_move {F : Type} : dict F :=
  [("claims", VList [VDict [("evidence", VList [VDict [("quote", VStr "q")]])]])].

(** *** Lessons and forecasts *)

(** What the specification's sentence on [load_context] describes: the
    slice of the most recent lessons, rendered most recent first. *)
Definition load_context_most_recent_first {F : Type} `{Arith F}
    (mm : Memory.t F) : string :=
  match Memory.load_lessons mm with
  | [] => ""
  | lessons =>
      String.concat Memory.newline
        (map Memory.context_line (take 20 (reverse lessons)))
  end.

(** The lessons of [test_load_context], saved as the learned lessons of a
    directory with no bootstrap file. *)
Definition test_lessons {F : Type} `{Arith F} : list (Lesson.t F) :=
  [Lesson.mk F "L1" "Lesson A" "Test" 0 "methodology" (fdec 8 10) "2026-01-01T00:00:00";
   Lesson.mk F "L2" "Lesson B" "Test" 0 "domain" (fdec 8 10) "2026-01-02T00:00:00"].

Definition test_lesson_memory {F : Type} `{Arith F} : Memory.t F :=
  Memory.mk F Memory.NoFile (Memory.JsonList test_lessons) Memory.NoFile None.

(** A directory whose forecasts file holds one pending forecast. *)
Definition test_forecast_memory {F : Type} `{Arith F} : Memory.t F :=
  Memory.mk F Memory.NoFile Memory.NoFile
    (Memory.JsonList [test_forecast (fdec 8 10) false None]) None.

(** The first forecast of a list with a given id, the one
    [resolve_forecast] stops at. *)
Definition first_with_id {F : Type} (forecast_id : string)
    (forecasts : list (Forecast.t F)) : option (Forecast.t F) :=
  find (fun f => String.eqb (Forecast.id f) forecast_id) forecasts.

(** *** Expert performance *)

(** A move takes part in the performance update unless it is an error or a
    synthesis. *)
Definition processed {F : Type} (move : Move.t F) : bool :=
  negb (bool_decide (Move.move_type move ∈ ["error"; "synthesize"])).

(** [cid] is among the targets of some move of the debate. *)
Definition targeted {F : Type} (moves : list (Move.t F)) (cid : string) : bool :=
  existsb (fun m => bool_decide (cid ∈ Move.targets m)) moves.

(** The number of claims of a move whose id some move of the debate
    targets. *)
Definition targeted_claims {F : Type} (moves : list (Move.t F))
    (move : Move.t F) : nat :=
  length (filter (fun c => targeted moves (Claim.id c)) (Move.claims move)).

(** The same, summed over the processed moves of one expert among
    [turns]. *)
Definition challenges_of {F : Type} (moves turns : list (Move.t F))
    (eid : string) : nat :=
  sum_list_with (targeted_claims moves)
    (filter (fun m => processed m && bool_decide (Move.agent_id m = eid)) turns).

(** The record of an expert in a performance table, the fresh one when the
    table has none. *)
Definition record_of {F : Type} `{Arith F}
    (perf : gmap string (ExpertPerformance.t F)) (eid : string)
    : ExpertPerformance.t F :=
  default (ExpertPerformance.new eid) (perf !! eid).

(** The mean confidence of the claims of a move. *)
Definition mean_confidence {F : Type} `{Arith F} (move : Move.t F) : F :=
  fdiv (fsum (map Claim.confidence (Move.claims move)))
    (of_int (Z.of_nat (length (Move.claims move)))).

(** The two moves of [test_update_panel_performance]: expert_a makes two
    claims, expert_b one claim that targets the first claim of expert_a. *)
Definition test_move {F : Type} `{Arith F} : Move.t F :=
  Move.mk F "M1" "expert_a" "A" 1 "claim" ""
    [Claim.mk F "M1_C1" "Claim 1" (fdec 8 10) [] [] "neutral";
     Claim.mk F "M1_C2" "Claim 2" (fdec 6 10) [] [] "neutral"]
    [] "2026-01-01T00:00:00" 0 0.

Definition test_counter_move {F : Type} `{Arith F} : Move.t F :=
  Move.mk F "M2" "expert_b" "B" 1 "claim" ""
    [Claim.mk F "M2_C1" "Counter" (fdec 9 10) [] [] "neutral"]
    ["M1_C1"] "2026-01-01T00:00:01" 0 0.

Definition test_state {F : Type} `{Arith F} : DebateState.t F :=
  DebateState.mk F "Test" "Test" "test" "test" 2 1
    [test_move; test_counter_move] "2026-01-01T00:00:00" "" 0 0.

(** A table with one record, of an expert with five claims so far at an
    average confidence of 0.7. *)
Definition test_record {F : Type} `{Arith F} : ExpertPerformance.t F :=
  ExpertPerformance.mk F "expert_a" 2 5 (fdec 7 10) 1 0.

Definition test_perf {F : Type} `{Arith F} : gmap string (ExpertPerformance.t F) :=
  {[ "expert_a" := test_record ]}.

(** A memory directory with no file. *)
Definition empty_memory {F : Type} : Memory.t F :=
  Memory.mk F Memory.NoFile Memory.NoFile Memory.NoFile None.

(** *** The turn loop *)

(** A run of two rounds over a panel of two experts: both speak in round 1,
    the first alone in round 2. *)
Definition test_round1 : RoundSpec.t := RoundSpec.mk 1 "Opening" "Q1" ["e1"; "e2"].
Definition test_round2 : RoundSpec.t := RoundSpec.mk 2 "Rebuttal" "Q2" ["e1"].

Definition test_expert2 : Expert.t := Expert.mk "e2" "Bob" "Engineer" "" "" "" "".

Definition test_runner : Runner.t :=
  Runner.mk
    (DebateSpec.mk "Test" "Context" [test_round1; test_round2] "")
    (Panel.mk "Panel" ""
       [Expert.mk "e1" "Ann" "Economist" "" "" "" ""; test_expert2])
    "sonnet" "opus" "".

(** A language model that fails at every call made for expert [e2] and
    answers every other call with a move without claims. *)
Definition test_make_move {F : Type} (agent : DebateAgent.t) (rnd : RoundSpec.t)
    (problem_context : string) (prior_moves : list (Move.t F))
    (move_id memory_context synthesizer_prompt : string) : Runner.outcome F :=
  if String.eqb (Expert.id (DebateAgent.expert agent)) "e2"
  then Runner.Raised "connection reset"
  else
    Runner.Returned
      (Move.mk F move_id (Expert.id (DebateAgent.expert agent))
         (Expert.display_title (DebateAgent.expert agent))
         (RoundSpec.number rnd) "claim" "analysis" [] []
         "2026-01-01T00:00:00" 100 50).

(** Every per-move file is written. *)
Definition test_write_move_file {F : Type} (move_counter : nat) (number : Z)
    (agent_id : string) (move : Move.t F) : option string := None.

Definition test_clock (move_counter : nat) : string := "2026-01-01T00:00:01".

(** The state the loop has reached when the turn of [e2] starts. *)
Definition test_state_before_e2 : DebateState.t Q :=
  (Runner.run_agents test_make_move test_write_move_file test_clock
     test_runner test_round1 ["e1"]
     (Runner.initial_state "2026-01-01T00:00:00" test_runner, 1%nat)).1.

(** *** Errors of the readers *)

(** Every exception a computation can raise satisfies [P]. *)
Definition raises_only {A : Type} (P : exn -> Prop) (r : result A) : Prop :=
  forall e, r = Raise e -> P e.

(** A missing-argument error names the [source] of an evidence. *)
Definition source_is_the_only_missing_field (e : exn) : Prop :=
  match e with
  | MissingArgument cls arg => cls = "Evidence" /\ arg = "source"
  | _ => True
  end.

(** The computation raises. *)
Definition fails {A : Type} (r : result A) : Prop := exists e, r = Raise e.

(** A move dictionary whose claim cites an evidence with a key that is not
    a field of [Evidence]. *)
Definition annotated_evidence_move {F : Type} : dict F :=
  [("move_id", VStr "M001");
   ("claims",
    VList [VDict [("id", VStr "M001_C1");
                  ("evidence",
                   VList [VDict [("source", VStr "S1"); ("url", VStr "U1")]])]])].

(** *** The performance counters *)

(** The processed moves of one expert, in the order of the debate. *)
Definition turns_of {F : Type} (moves : list (Move.t F)) (eid : string)
    : list (Move.t F) :=
  filter (fun m => processed m && bool_decide (Move.agent_id m = eid)) moves.

(** The sum of the confidences of the claims of a list of moves, move by
    move, over the rationals. *)
Definition confidence_sum (moves : list (Move.t Q)) : Q :=
  fold_right (fun m acc => Qplus (fsum (map Claim.confidence (Move.claims m))) acc)
    0%Q moves.

Definition claim_count {F : Type} (moves : list (Move.t F)) : nat :=
  sum_list_with (fun m => length (Move.claims m)) moves.

(** A directory with one bootstrap lesson and the two learned lessons of
    the tests. *)
Definition test_bootstrap_memory {F : Type} `{Arith F} : Memory.t F :=
  Memory.mk F
    (Memory.JsonList
       [Lesson.mk F "b1" "Lesson 1" "boot" 0 "methodology" (fdec 9 10)
          "2026-01-01T00:00:00"])
    (Memory.JsonList test_lessons) Memory.NoFile None.

(** A forecast resolved without an outcome, as the constructor and the
    files allow. *)
Definition test_outcomeless_memory {F : Type} `{Arith F} : Memory.t F :=
  Memory.mk F Memory.NoFile Memory.NoFile
    (Memory.JsonList [test_forecast (fdec 8 10) true None]) None.

(** *** Turns, warnings and estimates *)

(** The agent ids of a specification, round after round: one per turn of
    the loop. *)
Definition slots (spec : DebateSpec.t) : list string :=
  concat (map RoundSpec.agents (DebateSpec.rounds spec)).

(** The id is the reserved one or the id of an expert of the panel. *)
Definition known_agent (panel : Panel.t) (agent_id : string) : bool :=
  bool_decide (agent_id = "synthesizer" \/ agent_id ∈ Panel.list_ids panel).

(** The last expert of a list that carries an id. *)
Definition last_with_id (agent_id : string) (experts : list Expert.t)
    : option Expert.t :=
  last (filter (fun e => Expert.id e = agent_id) experts).

Definition sum_input_tokens {F : Type} (moves : list (Move.t F)) : Z :=
  foldr (fun m acc => Move.input_tokens m + acc) 0 moves.

Definition sum_output_tokens {F : Type} (moves : list (Move.t F)) : Z :=
  foldr (fun m acc => Move.output_tokens m + acc) 0 moves.

(** A round the estimate treats as a synthesis: its agents are the
    synthesizer alone. *)
Definition synthesis_round (rnd : RoundSpec.t) : bool :=
  bool_decide (RoundSpec.agents rnd = ["synthesizer"]).

(** The turns of the rounds that are not synthesis rounds, and the number
    of synthesis rounds. *)
Definition regular_turns (rounds : list RoundSpec.t) : nat :=
  sum_list_with (fun r => length (RoundSpec.agents r))
    (filter (fun r => synthesis_round r = false) rounds).

Definition synthesis_rounds (rounds : list RoundSpec.t) : nat :=
  length (filter (fun r => synthesis_round r = true) rounds).

(** The panel and specification of [test_missing_agent]. *)
Definition test_panel_e1 : Panel.t :=
  Panel.mk "P" "" [Expert.mk "e1" "E1" "T1" "" "" "" ""].

Definition test_spec_missing : DebateSpec.t :=
  DebateSpec.mk "S" "C" [RoundSpec.mk 1 "F" "Q" ["e1"; "missing_agent"]] "".

(** A specification file with two rounds and no round number, and the
    specification [load_spec] makes of it. *)
Definition test_rounds_data {F : Type} : list (value F) :=
  [VDict [("focus", VStr "Intro"); ("question", VStr "Q1?");
          ("agents", VList [VStr "e1"; VStr "e2"])];
   VDict [("focus", VStr "Synthesis"); ("question", VStr "Q2?");
          ("agents", VList [VStr "synthesizer"])]].

Definition test_spec_data {F : Type} : dict F :=
  [("title", VStr "Test Debate");
   ("context", VStr "Context here");
   ("rounds", VList test_rounds_data)].

Definition test_spec_loaded : DebateSpec.t :=
  DebateSpec.mk "Test Debate" "Context here"
    [RoundSpec.mk 1 "Intro" "Q1?" ["e1"; "e2"];
     RoundSpec.mk 2 "Synthesis" "Q2?" ["synthesizer"]] "".

(** A property of the value an expression of [_parse_response] gives, when
    it gives one. *)
Definition gives {A : Type} (P : A -> Prop) (r : DebateAgent.attempt A) : Prop :=
  match r with
  | DebateAgent.Value a _ => P a
  | DebateAgent.Handled | DebateAgent.Escapes _ => True
  end.

Definition is_value {A : Type} (r : DebateAgent.attempt A) : Prop :=
  exists a typed, r = DebateAgent.Value a typed.

(** A JSON object. *)
Definition is_object {F : Type} (v : value F) : Prop := exists d, v = VDict d.

(** The move of the [except] branch of [_parse_response]. *)
Definition fallback_move {F : Type} (self : DebateAgent.t)
    (text move_id : string) (round_num : Z) (now : string) : Move.t F :=
  Move.mk F move_id (DebateAgent.agent_id self)
    (Expert.display_title (DebateAgent.expert self)) round_num "claim"
    (substring 0 3000 text) [] [] now 0 0.

(** An expert's agent, and a reply whose second claim gives its confidence
    in words. *)
Definition test_agent : DebateAgent.t := DebateAgent.mk test_expert2 "sonnet" false.

Definition test_reply : dict Q :=
  [("move_type", VStr "object");
   ("claims",
    VList [VDict [("id", VStr "M001_C1"); ("confidence", VFloat (fdec 9 10))];
           VDict [("id", VStr "M001_C2"); ("confidence", VStr "high")]])].

(** A reply that is a JSON array, and one whose claims are texts. *)
Definition test_array_reply : value Q := VList [VDict test_reply].

Definition test_text_claims_reply : dict Q :=
  [("claims", VList [VStr "Inflation falls"])].

(** Six moves of a debate, the oldest first. *)
Definition test_recent_moves : list (Move.t Q) :=
  [test_move; test_counter_move; test_move; test_counter_move; test_move;
   test_counter_move].

(** * Properties *)

(** ** The data model *)

Section SchemasFacts.
Context {F : Type} `{Arith F}.

Lemma traverse_map_ok {A B : Type} (f : B -> result A) (g : A -> B) (l : list A) :
  (forall a, f (g a) = Ok a) -> traverse f (map g l) = Ok l.
Proof.
  intros Hfg. induction l as [|a l IH]; cbn; [done|].
  rewrite Hfg; cbn. rewrite IH; cbn. done.
Qed.

Lemma traverse_as_str (field : string) (l : list string) :
  traverse (as_str (F:=F) field) (map VStr l) = Ok l.
Proof. apply traverse_map_ok. done. Qed.

Lemma Evidence_roundtrip (e : Evidence.t) :
  Evidence.init (F:=F) (Evidence.to_dict e) = Ok e.
Proof. destruct e. reflexivity. Qed.

Lemma Claim_roundtrip (c : Claim.t F) :
  Claim.of_dict (Claim.to_dict c) = Ok c.
Proof.
  destruct c as [i tx cf ev asm st].
  unfold Claim.of_dict, Claim.to_dict, get_or; cbn.
  rewrite (traverse_map_ok (A:=Evidence.t))
    by (intros e; exact (Evidence_roundtrip e)).
  cbn. rewrite traverse_as_str. done.
Qed.

Lemma Move_roundtrip (m : Move.t F) :
  Move.from_dict (Move.to_dict m) = Ok m.
Proof.
  destruct m.
  unfold Move.from_dict, Move.to_dict, get_or; cbn.
  rewrite (traverse_map_ok (A:=Claim.t F))
    by (intros c; exact (Claim_roundtrip c)).
  cbn. rewrite traverse_as_str. done.
Qed.

(** The accumulation of [sum], started from any value. *)
Lemma total_claims_fold (ms : list (Move.t F)) (acc : Z) :
  fold_left (fun acc m => acc + Z.of_nat (length (Move.claims m))) ms acc
  = acc + Z.of_nat (sum_list_with (fun m => length (Move.claims m)) ms).
Proof.
  revert acc. induction ms as [|m ms IH]; intros acc; cbn; [lia|].
  rewrite IH. lia.
Qed.

End SchemasFacts.

(** C2. Serialising a debate state and reading the dictionary back gives the
    state itself: every field, and the moves with their claims and evidence,
    in order. *)
Theorem DebateState_roundtrip {F : Type} `{Arith F} (s : DebateState.t F) :
  DebateState.from_dict (DebateState.to_dict s) = Ok s.
Proof.
  destruct s.
  unfold DebateState.from_dict, DebateState.to_dict, get_or; cbn.
  rewrite (traverse_map_ok (A:=Move.t F))
    by (intros m; exact (Move_roundtrip m)).
  done.
Qed.

(** C3. The derived [total_claims] of a debate state is the sum, over its
    moves, of the number of claims of the move. *)
Theorem total_claims_is_sum {F : Type} `{Arith F} (s : DebateState.t F) :
  DebateState.total_claims s
  = Z.of_nat (sum_list_with (fun m => length (Move.claims m)) (DebateState.moves s)).
Proof. unfold DebateState.total_claims. rewrite total_claims_fold. lia. Qed.

(** C4. The Brier score of a forecast is absent unless the forecast is
    resolved with an outcome, and is then the square of the probability
    minus one (outcome true) or minus zero (outcome false), in whatever
    arithmetic the floats follow. At probability 0.9 it is 0.01 for a true
    outcome and 0.81 for a false one: exactly over the rationals, and up to
    the rounding of the subtraction and of the product, within the tests'
    tolerance of 1e-6, in binary64. *)
Theorem brier_score_spec :
  (forall (F : Type) (A : Arith F) (f : Forecast.t F),
     Forecast.brier_score f =
       match Forecast.resolved f, Forecast.outcome f with
       | true, Some o =>
           Some (fsquare (fsub (Forecast.probability f) (if o then fone else fzero)))
       | _, _ => None
       end)
  /\ Forecast.brier_score (test_forecast (F:=Q) (fdec 9 10) true (Some true))
     = Some (fdec 1 100)
  /\ Forecast.brier_score (test_forecast (F:=Q) (fdec 9 10) true (Some false))
     = Some (fdec 81 100)
  /\ score_close_to
       (Forecast.brier_score (test_forecast (F:=float) (fdec 9 10) true (Some true)))
       (fdec 1 100) = true
  /\ score_close_to
       (Forecast.brier_score (test_forecast (F:=float) (fdec 9 10) true (Some false)))
       (fdec 81 100) = true.
Proof.
  split; [|repeat split; vm_compute; reflexivity].
  intros F A f. unfold Forecast.brier_score.
  destruct (Forecast.resolved f), (Forecast.outcome f) as [[]|]; reflexivity.
Qed.

(** In binary64 the score of the first example is the neighbour of the
    double nearest to 0.01, not that double: the tests compare with a
    tolerance for this reason. *)
Remark brier_score_binary64_rounding :
  Forecast.brier_score (test_forecast (F:=float) (fdec 9 10) true (Some true))
  <> Some (fdec 1 100).
Proof.
  intros Heq.
  assert (Hb : from_option (fun x => PrimFloat.eqb x (fdec 1 100)) false
                 (Forecast.brier_score
                    (test_forecast (F:=float) (fdec 9 10) true (Some true)))
               = true)
    by (rewrite Heq; vm_compute; reflexivity).
  vm_compute in Hb. discriminate Hb.
Qed.

(** With no key at all, both readers return the defaults. *)
Lemma Move_from_dict_empty {F : Type} `{Arith F} :
  Move.from_dict (F:=F) [] = Ok (Move.mk F "" "" "" 0 "claim" "" [] [] "" 0 0).
Proof. reflexivity. Qed.

Lemma DebateState_from_dict_empty {F : Type} `{Arith F} :
  DebateState.from_dict (F:=F) [] = Ok (DebateState.mk F "" "" "" "" 0 0 [] "" "" 0 0).
Proof. reflexivity. Qed.

(** A claim dictionary with no key gives the default claim. *)
Lemma Move_from_dict_empty_claim {F : Type} `{Arith F} :
  Move.from_dict (F:=F) [("claims", VList [VDict []])]
  = Ok (Move.mk F "" "" "" 0 "claim" ""
          [Claim.mk F "" "" f0_7 [] [] "neutral"] [] "" 0 0).
Proof. reflexivity. Qed.

(** An evidence dictionary with a source and no quote gives the default
    quote. *)
Lemma Evidence_init_no_quote {F : Type} (s : string) :
  Evidence.init (F:=F) [("source", VStr s)] = Ok (Evidence.mk s "").
Proof. reflexivity. Qed.

(** C10. Reading a move whose evidence dictionary lacks [source] raises:
    neither [Move.from_dict] nor [DebateState.from_dict] supplies a default
    there, as they do for every other field. *)
Theorem from_dict_raises_on_missing_source :
  forall (F : Type) (A : Arith F),
    Move.from_dict (F:=F) sourceless_evidence_move
    = Raise (MissingArgument "Evidence" "source")
    /\ DebateState.from_dict (F:=F) [("moves", VList [VDict sourceless_evidence_move])]
       = Raise (MissingArgument "Evidence" "source").
Proof. intros F A. split; reflexivity. Qed.

(** ** The memory manager: lessons and forecasts *)

Section MemoryLists.
Context {F : Type} `{Arith F}.

Lemma load_lessons_app (mm : Memory.t F) :
  Memory.load_lessons mm
  = Memory.load_json_list (Memory.bootstrap_file mm)
    ++ Memory.load_json_list (Memory.lessons_file mm).
Proof.
  unfold Memory.load_lessons.
  destruct (Memory.bootstrap_file mm), (Memory.lessons_file mm); cbn;
    rewrite ?app_nil_r; reflexivity.
Qed.

(** The tail slice holds the first [n] elements of the reversed list, put
    back in the order of the list. *)
Lemma last_slice_reverse {A : Type} (n : nat) (l : list A) :
  Memory.last_slice n l = reverse (take n (reverse l)).
Proof.
  unfold Memory.last_slice. by rewrite take_reverse, reverse_involutive.
Qed.

Lemma last_slice_length {A : Type} (n : nat) (l : list A) :
  length (Memory.last_slice n l) = Nat.min n (length l).
Proof. unfold Memory.last_slice. rewrite length_drop. lia. Qed.

Lemma resolve_first_no_match (now fid : string) (o : bool)
    (fs : list (Forecast.t F)) :
  (forall f, f ∈ fs -> Forecast.id f <> fid) ->
  Memory.resolve_first now fid o fs = fs.
Proof.
  induction fs as [|f fs IH]; intros Hno; cbn; [done|].
  destruct (String.eqb_spec (Forecast.id f) fid) as [Heq|Hne].
  - exfalso. apply (Hno f); [left | exact Heq].
  - rewrite IH; [done|]. intros g Hg. apply Hno. by right.
Qed.

Lemma resolve_first_found (now fid : string) (o : bool)
    (fs : list (Forecast.t F)) (f : Forecast.t F) :
  first_with_id fid fs = Some f ->
  first_with_id fid (Memory.resolve_first now fid o fs)
  = Some (Memory.resolved_with now o f).
Proof.
  unfold first_with_id.
  induction fs as [|g fs IH]; cbn; [done|].
  destruct (String.eqb_spec (Forecast.id g) fid) as [Heq|Hne]; cbn.
  - intros [= ->]. by rewrite Heq, String.eqb_refl.
  - intros Hf. apply String.eqb_neq in Hne. rewrite Hne. by apply IH.
Qed.

(** A second resolution overwrites the first: nothing of the first one
    remains in the list. *)
Lemma resolve_first_twice (t1 t2 fid : string) (o1 o2 : bool)
    (fs : list (Forecast.t F)) :
  Memory.resolve_first t2 fid o2 (Memory.resolve_first t1 fid o1 fs)
  = Memory.resolve_first t2 fid o2 fs.
Proof.
  induction fs as [|g fs IH]; cbn; [done|].
  destruct (String.eqb_spec (Forecast.id g) fid) as [Heq|Hne]; cbn.
  - by rewrite Heq, String.eqb_refl.
  - apply String.eqb_neq in Hne. by rewrite Hne, IH.
Qed.

End MemoryLists.

(** C7. Resolving an id that no forecast carries writes the forecasts back
    as they were loaded: no record changes, and no other file of the
    directory is touched. *)
Theorem resolve_forecast_unknown_id {F : Type} `{Arith F} (mm : Memory.t F)
    (now forecast_id : string) (outcome : bool) :
  (forall f, f ∈ Memory.load_forecasts mm -> Forecast.id f <> forecast_id) ->
  Memory.load_forecasts (Memory.resolve_forecast now forecast_id outcome mm)
  = Memory.load_forecasts mm
  /\ Memory.forecasts_file (Memory.resolve_forecast now forecast_id outcome mm)
     = Memory.JsonList (Memory.load_forecasts mm)
  /\ Memory.bootstrap_file (Memory.resolve_forecast now forecast_id outcome mm)
     = Memory.bootstrap_file mm
  /\ Memory.lessons_file (Memory.resolve_forecast now forecast_id outcome mm)
     = Memory.lessons_file mm
  /\ Memory.performance_file (Memory.resolve_forecast now forecast_id outcome mm)
     = Memory.performance_file mm.
Proof.
  intros Hno. unfold Memory.resolve_forecast.
  rewrite (resolve_first_no_match _ _ _ _ Hno).
  repeat split; reflexivity.
Qed.

Lemma resolve_forecast_unknown_id_witness :
  Memory.load_forecasts
    (Memory.resolve_forecast "2026-07-01T12:00:00" "F2" true
       (test_forecast_memory (F:=Q)))
  = Memory.load_forecasts (test_forecast_memory (F:=Q)).
Proof.
  refine (proj1 (resolve_forecast_unknown_id (test_forecast_memory (F:=Q))
                   "2026-07-01T12:00:00" "F2" true _)).
  intros f Hf. apply list_elem_of_singleton in Hf. subst f. discriminate.
Defined.

(** C8. After two resolutions of the same forecast, the forecast carries the
    outcome and the time of the second, and its Brier score is the one of
    the second outcome; the stored list is what the second resolution alone
    would have left. Nothing raises: both calls return a directory. *)
Theorem resolve_forecast_last_write_wins {F : Type} `{Arith F}
    (mm : Memory.t F) (t1 t2 forecast_id : string) (o1 o2 : bool)
    (f : Forecast.t F) :
  first_with_id forecast_id (Memory.load_forecasts mm) = Some f ->
  exists f2,
    first_with_id forecast_id
      (Memory.load_forecasts
         (Memory.resolve_forecast t2 forecast_id o2
            (Memory.resolve_forecast t1 forecast_id o1 mm))) = Some f2
    /\ Forecast.resolved f2 = true
    /\ Forecast.outcome f2 = Some o2
    /\ Forecast.resolved_at f2 = t2
    /\ Forecast.probability f2 = Forecast.probability f
    /\ Forecast.brier_score f2
       = Some (fsquare (fsub (Forecast.probability f) (if o2 then fone else fzero)))
    /\ Memory.load_forecasts
         (Memory.resolve_forecast t2 forecast_id o2
            (Memory.resolve_forecast t1 forecast_id o1 mm))
       = Memory.load_forecasts (Memory.resolve_forecast t2 forecast_id o2 mm).
Proof.
  intros Hf. exists (Memory.resolved_with t2 o2 f).
  assert (Hlist :
    Memory.load_forecasts
      (Memory.resolve_forecast t2 forecast_id o2
         (Memory.resolve_forecast t1 forecast_id o1 mm))
    = Memory.resolve_first t2 forecast_id o2 (Memory.load_forecasts mm)).
  { unfold Memory.resolve_forecast; cbn. apply resolve_first_twice. }
  rewrite Hlist. split; [by apply resolve_first_found|].
  repeat split; reflexivity.
Qed.

Lemma resolve_forecast_last_write_wins_witness :
  exists f2,
    first_with_id "F1"
      (Memory.load_forecasts
         (Memory.resolve_forecast "2026-07-02T09:00:00" "F1" false
            (Memory.resolve_forecast "2026-07-01T12:00:00" "F1" true
               (test_forecast_memory (F:=Q))))) = Some f2
    /\ Forecast.resolved f2 = true
    /\ Forecast.outcome f2 = Some false
    /\ Forecast.resolved_at f2 = "2026-07-02T09:00:00"
    /\ Forecast.probability f2 = fdec 8 10
    /\ Forecast.brier_score f2
       = Some (fsquare (fsub (fdec 8 10) fzero))
    /\ Memory.load_forecasts
         (Memory.resolve_forecast "2026-07-02T09:00:00" "F1" false
            (Memory.resolve_forecast "2026-07-01T12:00:00" "F1" true
               (test_forecast_memory (F:=Q))))
       = Memory.load_forecasts
           (Memory.resolve_forecast "2026-07-02T09:00:00" "F1" false
              (test_forecast_memory (F:=Q))).
Proof.
  exact (resolve_forecast_last_write_wins (test_forecast_memory (F:=Q))
           "2026-07-01T12:00:00" "2026-07-02T09:00:00" "F1" true false
           (test_forecast (fdec 8 10) false None) eq_refl).
Defined.

(** C9, as the specification words it, fails on the two lessons of the
    repository's test: the context lists Lesson A, the older one, first. *)
Lemma load_context_not_most_recent_first :
  Memory.load_context (test_lesson_memory (F:=Q))
  = "- [methodology] Lesson A" +:+ Memory.newline +:+ "- [domain] Lesson B"
  /\ load_context_most_recent_first (test_lesson_memory (F:=Q))
     = "- [domain] Lesson B" +:+ Memory.newline +:+ "- [methodology] Lesson A"
  /\ Memory.load_context (test_lesson_memory (F:=Q))
     <> load_context_most_recent_first (test_lesson_memory (F:=Q)).
Proof. split; [reflexivity | split; [reflexivity | discriminate]]. Qed.

(** C9, amended. [load_context] reads the bootstrap lessons followed by the
    learned ones; on an empty sequence it returns the empty string, and
    otherwise the lines [- [category] text] of the last twenty lessons of
    the sequence (all of them when there are fewer), joined by newlines in
    the order of the sequence: the oldest of the slice first, the most
    recent last. *)
Theorem load_context_tail_in_order {F : Type} `{Arith F} (mm : Memory.t F) :
  Memory.load_lessons mm
  = Memory.load_json_list (Memory.bootstrap_file mm)
    ++ Memory.load_json_list (Memory.lessons_file mm)
  /\ Memory.load_context mm
     = match Memory.load_lessons mm with
       | [] => ""
       | lessons =>
           String.concat Memory.newline
             (map (fun l => "- [" +:+ Lesson.category l +:+ "] " +:+ Lesson.text l)
                (reverse (take 20 (reverse lessons))))
       end
  /\ length (reverse (take 20 (reverse (Memory.load_lessons mm))))
     = Nat.min 20 (length (Memory.load_lessons mm)).
Proof.
  split; [apply load_lessons_app|]. split.
  - unfold Memory.load_context.
    destruct (Memory.load_lessons mm) as [|l ls]; [reflexivity|].
    by rewrite last_slice_reverse.
  - by rewrite <- last_slice_reverse, last_slice_length.
Qed.

(** ** The memory manager: expert performance *)

Section Performance.
Context {F : Type} `{Arith F}.

Implicit Types (perf : gmap string (ExpertPerformance.t F)).
Implicit Types (targets : gmap string string).

(** The target index holds exactly the ids some move targets. *)
Lemma all_targets_fold (moves : list (Move.t F)) (acc : gmap string string)
    (cid : string) :
  is_Some
    (fold_left
       (fun acc move =>
          fold_left (fun acc target => <[target := Move.agent_id move]> acc)
            (Move.targets move) acc)
       moves acc !! cid)
  <-> is_Some (acc !! cid) \/ targeted moves cid = true.
Proof.
  revert acc. induction moves as [|m moves IH]; intros acc; cbn.
  - split; [by left | intros [?|?]; done].
  - rewrite IH. clear IH.
    assert (Hin : forall (ts : list string) (acc : gmap string string),
      is_Some (fold_left (fun acc t => <[t := Move.agent_id m]> acc) ts acc !! cid)
      <-> is_Some (acc !! cid) \/ cid ∈ ts).
    { induction ts as [|t ts IHts]; intros acc'; cbn.
      - split; [by left | intros [?|Hin]; [done | by apply elem_of_nil in Hin]].
      - rewrite IHts, lookup_insert_is_Some, elem_of_cons.
        split.
        + intros [[Heq|[_ Hs]]|Hin];
            [right; left; done | left; done | right; right; done].
        + intros [Hs|[Heq|Hin]]; [|left; left; done|right; done].
          destruct (decide (t = cid)); [left; left; done|left; right; done]. }
    rewrite Hin, orb_true_iff, bool_decide_eq_true. tauto.
Qed.

Lemma all_targets_spec (moves : list (Move.t F)) (cid : string) :
  bool_decide (is_Some (Memory.all_targets moves !! cid)) = targeted moves cid.
Proof.
  apply eq_true_iff_eq. rewrite bool_decide_eq_true.
  unfold Memory.all_targets. rewrite all_targets_fold, lookup_empty.
  split; [intros [[? [=]]|?]; done | by right].
Qed.

(** The inner counting loop. *)
Lemma received_fold (test : Claim.t F -> bool) (claims : list (Claim.t F)) (r : Z) :
  fold_left (fun acc claim => if test claim then acc + 1 else acc) claims r
  = r + Z.of_nat (length (filter test claims)).
Proof.
  revert r. induction claims as [|c claims IH]; intros r; [cbn; lia|].
  rewrite filter_cons. cbn [fold_left]. rewrite IH.
  destruct (test c);
    [rewrite decide_True by done | rewrite decide_False by (intros [])];
    cbn [length]; lia.
Qed.

(** What one iteration leaves under a key: the updated record of the
    move's agent, and every other record as it was. *)
Lemma update_move_lookup targets perf (move : Move.t F) (eid : string) :
  Memory.update_move targets perf move !! eid
  = if processed move && bool_decide (Move.agent_id move = eid)
    then Some (Memory.update_record targets move (record_of perf eid))
    else perf !! eid.
Proof.
  unfold Memory.update_move, processed, record_of.
  destruct (bool_decide (Move.move_type move ∈ ["error"; "synthesize"])); cbn;
    [done|].
  case_bool_decide as Heid.
  - subst eid. destruct (perf !! Move.agent_id move) as [p|] eqn:Hp.
    + rewrite Hp. by rewrite lookup_insert_eq.
    + rewrite lookup_insert_eq. by rewrite lookup_insert_eq.
  - destruct (perf !! Move.agent_id move) as [p|] eqn:Hp.
    + rewrite Hp. by rewrite lookup_insert_ne.
    + rewrite lookup_insert_eq. by rewrite !lookup_insert_ne.
Qed.

Lemma record_of_update_move targets perf (move : Move.t F) (eid : string) :
  record_of (Memory.update_move targets perf move) eid
  = if processed move && bool_decide (Move.agent_id move = eid)
    then Memory.update_record targets move (record_of perf eid)
    else record_of perf eid.
Proof.
  unfold record_of at 1. rewrite update_move_lookup.
  by destruct (processed move && bool_decide (Move.agent_id move = eid)).
Qed.

Lemma update_record_received targets (move : Move.t F) (p : ExpertPerformance.t F) :
  ExpertPerformance.challenges_received (Memory.update_record targets move p)
  = ExpertPerformance.challenges_received p
    + Z.of_nat
        (length
           (filter (fun c => bool_decide (is_Some (targets !! Claim.id c)))
              (Move.claims move))).
Proof.
  cbn. apply (received_fold (fun c => bool_decide (is_Some (targets !! Claim.id c)))).
Qed.

(** The second loop, seen from one expert: each processed move of the
    expert adds its claims that the index knows. *)
Lemma update_fold_received (moves turns : list (Move.t F)) perf (eid : string) :
  ExpertPerformance.challenges_received
    (record_of (fold_left (Memory.update_move (Memory.all_targets moves)) turns perf) eid)
  = ExpertPerformance.challenges_received (record_of perf eid)
    + Z.of_nat (challenges_of moves turns eid).
Proof.
  unfold challenges_of.
  revert perf. induction turns as [|m turns IH]; intros perf; [cbn; lia|].
  cbn [fold_left]. rewrite IH, record_of_update_move, filter_cons.
  destruct (processed m && bool_decide (Move.agent_id m = eid)).
  - rewrite decide_True by done. rewrite update_record_received.
    cbn [sum_list_with]. unfold targeted_claims at 2.
    rewrite (list_filter_iff
               (fun c => bool_decide (is_Some (Memory.all_targets moves !! Claim.id c)))
               (fun c => targeted moves (Claim.id c)));
      [lia|].
    intros c. by rewrite all_targets_spec.
  - rewrite decide_False by (intros []). lia.
Qed.

(** The guard [if total > 0] of the source: a record whose stored total is
    so negative that the new total is not positive keeps its average. No
    table the program writes holds such a record (see
    [update_move_total_nonneg]). *)
Lemma update_record_guard targets (move : Move.t F) (p : ExpertPerformance.t F) :
  ExpertPerformance.total_claims p + Z.of_nat (length (Move.claims move)) <= 0 ->
  ExpertPerformance.avg_confidence (Memory.update_record targets move p)
  = ExpertPerformance.avg_confidence p.
Proof.
  intros Hle. cbn.
  destruct (0 <? Z.of_nat (length (Move.claims move))); [|done].
  by rewrite (proj2 (Z.ltb_ge _ _)) by lia.
Qed.

(** Every record of a table whose totals are not negative keeps a total
    that is not negative: the tables the program writes, starting from no
    file, all have the property. *)
Lemma update_move_total_nonneg targets perf (move : Move.t F) :
  (forall eid p, perf !! eid = Some p -> 0 <= ExpertPerformance.total_claims p) ->
  forall eid p, Memory.update_move targets perf move !! eid = Some p ->
    0 <= ExpertPerformance.total_claims p.
Proof.
  intros Hperf eid p. rewrite update_move_lookup.
  destruct (processed move && bool_decide (Move.agent_id move = eid));
    [|apply Hperf].
  intros [= <-]. cbn.
  assert (0 <= ExpertPerformance.total_claims (record_of perf eid)); [|lia].
  unfold record_of. destruct (perf !! eid) as [q|] eqn:Hq; cbn; [eauto|lia].
Qed.

End Performance.

(** C5. When a processed move reaches a record that exists, with a total
    that is not negative, the record's average confidence becomes
    [(old_avg * old_total + mean * n_new) / (old_total + n_new)] if the move
    has [n_new > 0] claims, [mean] being the mean confidence of the move's
    claims and [old_total] the total before the move is added; with no
    claim the average stays. *)
Theorem avg_confidence_running_mean {F : Type} `{Arith F}
    (targets : gmap string string)
    (perf : gmap string (ExpertPerformance.t F)) (move : Move.t F)
    (p : ExpertPerformance.t F) :
  perf !! Move.agent_id move = Some p ->
  processed move = true ->
  0 <= ExpertPerformance.total_claims p ->
  exists p',
    Memory.update_move targets perf move !! Move.agent_id move = Some p'
    /\ ExpertPerformance.total_claims p'
       = ExpertPerformance.total_claims p + Z.of_nat (length (Move.claims move))
    /\ ExpertPerformance.avg_confidence p'
       = if 0 <? Z.of_nat (length (Move.claims move)) then
           fdiv
             (fadd
                (fmul (ExpertPerformance.avg_confidence p)
                   (of_int (ExpertPerformance.total_claims p)))
                (fmul (mean_confidence move)
                   (of_int (Z.of_nat (length (Move.claims move))))))
             (of_int (ExpertPerformance.total_claims p
                      + Z.of_nat (length (Move.claims move))))
         else ExpertPerformance.avg_confidence p.
Proof.
  intros Hp Hproc Hnonneg.
  exists (Memory.update_record targets move p).
  rewrite update_move_lookup, Hproc, bool_decide_eq_true_2 by done.
  unfold record_of. rewrite Hp. cbn.
  split; [done|]. split; [done|].
  destruct (0 <? Z.of_nat (length (Move.claims move))) eqn:Hn; [|done].
  apply Z.ltb_lt in Hn.
  rewrite (proj2 (Z.ltb_lt 0 _)) by lia.
  unfold mean_confidence.
  by replace (ExpertPerformance.total_claims p
              + Z.of_nat (length (Move.claims move))
              - Z.of_nat (length (Move.claims move)))
    with (ExpertPerformance.total_claims p) by lia.
Qed.

Lemma avg_confidence_running_mean_witness :
  exists p',
    Memory.update_move ∅ (test_perf (F:=Q)) test_move !! "expert_a" = Some p'
    /\ ExpertPerformance.total_claims p' = 5 + 2
    /\ ExpertPerformance.avg_confidence p'
       = fdiv
           (fadd (fmul (fdec 7 10) (of_int 5))
              (fmul (mean_confidence test_move) (of_int 2)))
           (of_int (5 + 2)).
Proof.
  refine (avg_confidence_running_mean ∅ (test_perf (F:=Q)) test_move
            test_record _ _ _).
  - vm_compute. reflexivity.
  - vm_compute. reflexivity.
  - vm_compute. discriminate.
Defined.

(** C6. After [update_panel_performance], the [challenges_received] of an
    expert has grown by the number of claims, in the expert's processed
    moves, whose id is a target of some move of the debate, wherever that
    move stands in the list: the index of targets is complete before the
    first record is touched. On the two moves of the repository's test,
    where the second move targets a claim of the first, expert_a ends with
    two claims and one challenge received, expert_b with one claim and one
    challenge made. *)
Theorem challenges_received_counts_all_targets :
  (forall (F : Type) (A : Arith F) (state : DebateState.t F) (mm : Memory.t F)
          (eid : string),
     ExpertPerformance.challenges_received
       (record_of
          (Memory.load_performance (Memory.update_panel_performance state mm)) eid)
     = ExpertPerformance.challenges_received
         (record_of (Memory.load_performance mm) eid)
       + Z.of_nat
           (challenges_of (DebateState.moves state) (DebateState.moves state) eid))
  /\ ExpertPerformance.total_claims
       <$> Memory.load_performance
             (Memory.update_panel_performance (test_state (F:=Q)) empty_memory)
           !! "expert_a" = Some 2
  /\ ExpertPerformance.challenges_received
       <$> Memory.load_performance
             (Memory.update_panel_performance (test_state (F:=Q)) empty_memory)
           !! "expert_a" = Some 1
  /\ ExpertPerformance.total_claims
       <$> Memory.load_performance
             (Memory.update_panel_performance (test_state (F:=Q)) empty_memory)
           !! "expert_b" = Some 1
  /\ ExpertPerformance.challenges_made
       <$> Memory.load_performance
             (Memory.update_panel_performance (test_state (F:=Q)) empty_memory)
           !! "expert_b" = Some 1.
Proof.
  split; [|repeat split; vm_compute; reflexivity].
  intros F A state mm eid.
  unfold Memory.update_panel_performance. cbn [Memory.load_performance
    Memory.save_performance Memory.performance_file].
  apply update_fold_received.
Qed.

(** ** The turn loop *)

Section TurnLoop.
Context {F : Type} `{Arith F}.
Variable make_move :
  DebateAgent.t -> RoundSpec.t -> string -> list (Move.t F) -> string ->
  string -> string -> Runner.outcome F.
Variable write_move_file : nat -> Z -> string -> Move.t F -> option string.
Variable error_time : nat -> string.

#[local] Abbreviation turn := (Runner.turn make_move write_move_file error_time).
#[local] Abbreviation run_agents := (Runner.run_agents make_move write_move_file error_time).
#[local] Abbreviation run_rounds := (Runner.run_rounds make_move write_move_file error_time).

Lemma run_agents_app (self : Runner.t) (rnd : RoundSpec.t)
    (ids1 ids2 : list string) (acc : DebateState.t F * nat) :
  run_agents self rnd (ids1 ++ ids2) acc
  = run_agents self rnd ids2 (run_agents self rnd ids1 acc).
Proof. apply fold_left_app. Qed.

Lemma run_agents_cons (self : Runner.t) (rnd : RoundSpec.t)
    (agent_id : string) (ids : list string) (acc : DebateState.t F * nat) :
  run_agents self rnd (agent_id :: ids) acc
  = run_agents self rnd ids (turn self rnd acc agent_id).
Proof. reflexivity. Qed.

Lemma run_rounds_cons (self : Runner.t) (rnd : RoundSpec.t)
    (later : list RoundSpec.t) (acc : DebateState.t F * nat) :
  run_rounds self (rnd :: later) acc
  = run_rounds self later (run_agents self rnd (RoundSpec.agents rnd) acc).
Proof. reflexivity. Qed.

(** The state's list of moves only grows. *)
Lemma turn_appends (self : Runner.t) (rnd : RoundSpec.t)
    (acc : DebateState.t F * nat) (agent_id : string) :
  exists new,
    DebateState.moves (turn self rnd acc agent_id).1
    = DebateState.moves acc.1 ++ new.
Proof.
  destruct acc as [state counter]. unfold Runner.turn.
  destruct (Runner.agents self !! agent_id) as [agent|];
    [|exists []; cbn; by rewrite app_nil_r].
  destruct (make_move _ _ _ _ _ _ _) as [move|e]; cbn.
  - destruct (write_move_file _ _ _ _); cbn.
    + eexists. by rewrite <- app_assoc.
    + by eexists.
  - by eexists.
Qed.

Lemma run_agents_appends (self : Runner.t) (rnd : RoundSpec.t)
    (agent_ids : list string) (acc : DebateState.t F * nat) :
  exists new,
    DebateState.moves (run_agents self rnd agent_ids acc).1
    = DebateState.moves acc.1 ++ new.
Proof.
  revert acc. induction agent_ids as [|a agent_ids IH]; intros acc.
  - exists []. cbn. by rewrite app_nil_r.
  - rewrite run_agents_cons.
    destruct (IH (turn self rnd acc a)) as [new2 ->].
    destruct (turn_appends self rnd acc a) as [new1 ->].
    exists (new1 ++ new2). by rewrite app_assoc.
Qed.

Lemma run_rounds_appends (self : Runner.t) (rounds : list RoundSpec.t)
    (acc : DebateState.t F * nat) :
  exists new,
    DebateState.moves (run_rounds self rounds acc).1
    = DebateState.moves acc.1 ++ new.
Proof.
  revert acc. induction rounds as [|r rounds IH]; intros acc.
  - exists []. cbn. by rewrite app_nil_r.
  - rewrite run_rounds_cons.
    destruct (IH (run_agents self r (RoundSpec.agents r) acc)) as [new2 ->].
    destruct (run_agents_appends self r (RoundSpec.agents r) acc) as [new1 ->].
    exists (new1 ++ new2). by rewrite app_assoc.
Qed.

(** C1. When the call of [make_move] for an agent of a round raises, the
    turn appends a move of type "error" with no claim, whose content
    describes the failure, and adds one to the move counter; the loop then
    runs the agents that follow in the round and the rounds that follow in
    the run from that state, and the error move stays in the list of moves
    to the end. *)
Theorem agent_failure_is_isolated (self : Runner.t) (rnd : RoundSpec.t)
    (before after : list string) (agent_id : string)
    (later : list RoundSpec.t) (state state1 : DebateState.t F)
    (move_counter counter1 : nat) (agent : DebateAgent.t) (e : string) :
  RoundSpec.agents rnd = before ++ agent_id :: after ->
  run_agents self rnd before (state, move_counter) = (state1, counter1) ->
  Runner.agents self !! agent_id = Some agent ->
  make_move agent rnd (DebateSpec.context (Runner.spec self))
    (DebateState.moves state1) (Runner.format_move_id counter1)
    (Runner.memory_context self)
    (DebateSpec.synthesizer_prompt (Runner.spec self)) = Runner.Raised e ->
  exists error_move,
    Move.move_type error_move = "error"
    /\ Move.claims error_move = []
    /\ Move.content error_move = "Agent error: " +:+ e
    /\ Move.move_id error_move = Runner.format_move_id counter1
    /\ Move.agent_id error_move = agent_id
    /\ Move.round error_move = RoundSpec.number rnd
    /\ turn self rnd (state1, counter1) agent_id
       = (Runner.append_move state1 error_move, S counter1)
    /\ run_rounds self (rnd :: later) (state, move_counter)
       = run_rounds self later
           (run_agents self rnd after
              (Runner.append_move state1 error_move, S counter1))
    /\ exists new,
         DebateState.moves (run_rounds self (rnd :: later) (state, move_counter)).1
         = DebateState.moves state1 ++ error_move :: new.
Proof.
  intros Hagents Hbefore Hagent Hraise.
  set (err := Runner.error_move (F:=F) error_time counter1
                (Runner.format_move_id counter1) agent_id
                (Expert.display_title (DebateAgent.expert agent)) rnd e).
  assert (Hturn : turn self rnd (state1, counter1) agent_id
                  = (Runner.append_move state1 err, S counter1)).
  { unfold Runner.turn. by rewrite Hagent, Hraise. }
  assert (Hrun : run_rounds self (rnd :: later) (state, move_counter)
                 = run_rounds self later
                     (run_agents self rnd after
                        (Runner.append_move state1 err, S counter1))).
  { rewrite run_rounds_cons, Hagents, run_agents_app, Hbefore.
    by rewrite run_agents_cons, Hturn. }
  exists err. repeat split; try done.
  rewrite Hrun.
  destruct (run_rounds_appends self later
              (run_agents self rnd after (Runner.append_move state1 err, S counter1)))
    as [new2 ->].
  destruct (run_agents_appends self rnd after
              (Runner.append_move state1 err, S counter1)) as [new1 ->].
  cbn. exists (new1 ++ new2). by rewrite <- !app_assoc.
Qed.

End TurnLoop.

(** The run of [test_runner]: round 1 leaves one normal move and one error
    move, and round 2 still runs. *)
Example test_run_moves :
  map (fun m => (Move.move_id m, Move.move_type m, Move.round m, Move.claims m))
    (DebateState.moves
       (Runner.run (F:=Q) test_make_move test_write_move_file
          "2026-01-01T00:00:00" test_clock "2026-01-01T01:00:00" test_runner))
  = [("M001", "claim", 1, []); ("M002", "error", 1, []); ("M003", "claim", 2, [])].
Proof. vm_compute. reflexivity. Qed.

Lemma agent_failure_is_isolated_witness :
  exists error_move : Move.t Q,
    Move.move_type error_move = "error"
    /\ Move.claims error_move = []
    /\ Move.content error_move = "Agent error: " +:+ "connection reset"
    /\ Move.move_id error_move = Runner.format_move_id 2
    /\ Move.agent_id error_move = "e2"
    /\ Move.round error_move = RoundSpec.number test_round1
    /\ Runner.turn test_make_move test_write_move_file test_clock test_runner
         test_round1 (test_state_before_e2, 2%nat) "e2"
       = (Runner.append_move test_state_before_e2 error_move, 3%nat)
    /\ Runner.run_rounds test_make_move test_write_move_file test_clock
         test_runner (test_round1 :: [test_round2])
         (Runner.initial_state "2026-01-01T00:00:00" test_runner, 1%nat)
       = Runner.run_rounds test_make_move test_write_move_file test_clock
           test_runner [test_round2]
           (Runner.run_agents test_make_move test_write_move_file test_clock
              test_runner test_round1 []
              (Runner.append_move test_state_before_e2 error_move, 3%nat))
    /\ exists new,
         DebateState.moves
           (Runner.run_rounds test_make_move test_write_move_file test_clock
              test_runner (test_round1 :: [test_round2])
              (Runner.initial_state "2026-01-01T00:00:00" test_runner, 1%nat)).1
         = DebateState.moves test_state_before_e2 ++ error_move :: new.
Proof.
  refine (agent_failure_is_isolated test_make_move test_write_move_file
            test_clock test_runner test_round1 ["e1"] [] "e2" [test_round2]
            (Runner.initial_state "2026-01-01T00:00:00" test_runner)
            test_state_before_e2 1 2
            (DebateAgent.mk test_expert2 "sonnet" false)
            "connection reset" _ _ _ _).
  - reflexivity.
  - vm_compute. reflexivity.
  - vm_compute. reflexivity.
  - vm_compute. reflexivity.
Defined.

(** * Further properties of the code *)

(** ** schemas.py: lookups and the dictionaries of the memory records *)

Section RecordDictionaries.
Context {F : Type} `{Arith F}.

(** Restricting a dictionary to a list of fields keeps what [get] finds
    under each of those fields. *)
Lemma get_restrict (fields : list string) (d : dict F) (k : string) :
  k ∈ fields -> get (restrict fields d) k = get d k.
Proof.
  intros Hk. unfold restrict, dict in *.
  induction d as [|[k' v] d IH]; [done|].
  rewrite filter_cons. cbn [fst get].
  destruct (String.eqb_spec k' k) as [->|Hne].
  - rewrite decide_True by (by apply bool_decide_pack). cbn.
    by rewrite String.eqb_refl.
  - destruct (decide _); [cbn|]; rewrite ?(proj2 (String.eqb_neq _ _) Hne);
      exact IH.
Qed.

(** A key outside the fields is invisible to the restriction. *)
Lemma restrict_cons_unknown (fields : list string) (d : dict F)
    (k : string) (v : value F) :
  k ∉ fields -> restrict fields ((k, v) :: d) = restrict fields d.
Proof.
  intros Hk. unfold restrict, dict. rewrite filter_cons.
  rewrite decide_False; [done|]. cbn. by rewrite bool_decide_spec.
Qed.

Lemma traverse_raise_inv {A B : Type} (f : A -> result B) (l : list A) (e : exn) :
  traverse f l = Raise e -> exists a, a ∈ l /\ f a = Raise e.
Proof.
  induction l as [|a l IH]; cbn; [done|].
  destruct (f a) as [b|e'] eqn:Hfa; cbn.
  - destruct (traverse f l) as [bs|e'']; cbn; [done|].
    intros [= ->]. destruct IH as (a' & Hin & Ha'); [done|].
    exists a'. split; [by right|done].
  - intros [= ->]. exists a. split; [by left|done].
Qed.

Lemma Lesson_from_to_dict (now : string) (l : Lesson.t F) :
  Lesson.from_dict now (Lesson.to_dict l) = Ok l.
Proof. destruct l. reflexivity. Qed.

Lemma Forecast_from_to_dict (now : string) (f : Forecast.t F) :
  Forecast.from_dict now (Forecast.to_dict f) = Ok f.
Proof. destruct f as [? ? ? ? ? ? ? [o|] ? ?]; reflexivity. Qed.

Lemma ExpertPerformance_from_to_dict (p : ExpertPerformance.t F) :
  ExpertPerformance.from_dict (ExpertPerformance.to_dict p) = Ok p.
Proof. destruct p. reflexivity. Qed.

End RecordDictionaries.

(** X1. [Panel.get_expert] returns the first expert of the panel that has
    the id, and returns nothing exactly when no expert has it. *)
Theorem get_expert_first_match (p : Panel.t) (expert_id : string) :
  match Panel.get_expert p expert_id with
  | Some e =>
      Expert.id e = expert_id
      /\ exists before after,
           Panel.experts p = before ++ e :: after
           /\ expert_id ∉ map Expert.id before
  | None => expert_id ∉ Panel.list_ids p
  end.
Proof.
  unfold Panel.get_expert, Panel.list_ids.
  induction (Panel.experts p) as [|e es IH]; cbn.
  - apply not_elem_of_nil.
  - destruct (String.eqb_spec (Expert.id e) expert_id) as [Heq|Hne].
    + split; [done|]. exists [], es. split; [done|]. apply not_elem_of_nil.
    + destruct (find _ es) as [e'|].
      * destruct IH as (Hid & before & after & -> & Hnot).
        split; [done|]. exists (e :: before), after. split; [done|].
        cbn. rewrite not_elem_of_cons. split; [congruence|done].
      * rewrite not_elem_of_cons. split; [congruence|done].
Qed.

(** X2. Each record of the memory files is read back from its own
    dictionary: a lesson, a forecast (whose dictionary also carries the
    derived [brier_score], which the reader drops) and an expert's
    performance. *)
Theorem memory_records_roundtrip {F : Type} `{Arith F} :
  (forall (now : string) (l : Lesson.t F),
     Lesson.from_dict now (Lesson.to_dict l) = Ok l)
  /\ (forall (now : string) (f : Forecast.t F),
        Forecast.from_dict now (Forecast.to_dict f) = Ok f)
  /\ (forall p : ExpertPerformance.t F,
        ExpertPerformance.from_dict (ExpertPerformance.to_dict p) = Ok p).
Proof.
  split; [|split].
  - apply Lesson_from_to_dict.
  - apply Forecast_from_to_dict.
  - apply ExpertPerformance_from_to_dict.
Qed.

(** X3. The readers of the memory records raise when a field without a
    default is absent, whatever else the dictionary holds: [id], [text] and
    [source_debate] of a lesson, these three with [probability] and
    [deadline] of a forecast, [expert_id] of a performance record. *)
Theorem memory_records_require_fields {F : Type} `{Arith F} (now : string)
    (d : dict F) (k : string) :
  get d k = None ->
  (k ∈ ["id"; "text"; "source_debate"] ->
     exists e, Lesson.from_dict now d = Raise e)
  /\ (k ∈ ["id"; "text"; "probability"; "deadline"; "source_debate"] ->
        exists e, Forecast.from_dict now d = Raise e)
  /\ (k = "expert_id" ->
        exists e, ExpertPerformance.from_dict d = Raise e).
Proof.
  intros Hk.
  assert (Hstep : forall {A B} (r : result A) (g : A -> result B),
            (forall a, exists e, g a = Raise e) -> exists e, (r ≫= g) = Raise e).
  { intros A B [a|e] g Hg; cbn; [apply Hg|by exists e]. }
  assert (Hfield : forall (fields : list string),
            k ∈ fields -> get (restrict fields d) k = None).
  { intros fields Hin. by rewrite get_restrict. }
  repeat split.
  - intros Hin. unfold Lesson.from_dict, Lesson.init, required.
    assert (Hnone := Hfield Lesson.fields).
    repeat (apply elem_of_cons in Hin as [->|Hin]);
      [| | |by apply elem_of_nil in Hin];
      rewrite Hnone by (unfold Lesson.fields; repeat constructor);
      repeat first [ solve [eexists; reflexivity] | apply Hstep; intros ? ].
  - intros Hin. unfold Forecast.from_dict, Forecast.init, required.
    assert (Hnone := Hfield Forecast.fields).
    repeat (apply elem_of_cons in Hin as [->|Hin]);
      [| | | | |by apply elem_of_nil in Hin];
      rewrite Hnone by (unfold Forecast.fields; repeat constructor);
      repeat first [ solve [eexists; reflexivity] | apply Hstep; intros ? ].
  - intros ->. unfold ExpertPerformance.from_dict, ExpertPerformance.init, required.
    rewrite (Hfield ExpertPerformance.fields)
      by (unfold ExpertPerformance.fields; repeat constructor).
    eexists; reflexivity.
Qed.

Lemma memory_records_require_fields_witness :
  exists e, Forecast.from_dict (F:=Q) "2026-01-01T00:00:00"
              [("id", VStr "F1"); ("text", VStr "Test")] = Raise e.
Proof.
  refine (proj1 (proj2 (memory_records_require_fields (F:=Q)
                          "2026-01-01T00:00:00"
                          [("id", VStr "F1"); ("text", VStr "Test")]
                          "probability" _)) _).
  - reflexivity.
  - repeat constructor.
Defined.

Section FromDictErrors.
Context {F : Type} `{Arith F}.

Lemma raises_only_bind {A B : Type} (P : exn -> Prop) (r : result A)
    (g : A -> result B) :
  raises_only P r -> (forall a, raises_only P (g a)) -> raises_only P (r ≫= g).
Proof.
  intros Hr Hg e. destruct r as [a|e']; cbn.
  - apply Hg.
  - intros [= ->]. by apply Hr.
Qed.

Lemma raises_only_ok {A : Type} (P : exn -> Prop) (a : A) :
  raises_only P (Ok a).
Proof. intros e. discriminate. Qed.

Lemma raises_only_traverse {A B : Type} (P : exn -> Prop) (f : A -> result B)
    (l : list A) :
  (forall a, raises_only P (f a)) -> raises_only P (traverse f l).
Proof.
  intros Hf. induction l as [|a l IH]; cbn; [apply raises_only_ok|].
  apply raises_only_bind; [apply Hf|]. intros b.
  apply raises_only_bind; [apply IH|]. intros bs. apply raises_only_ok.
Qed.

Lemma raises_only_get_or {A : Type} (P : exn -> Prop) (d : dict F) (k : string)
    (read : string -> value F -> result A) (dflt : A) :
  (forall v, raises_only P (read k v)) -> raises_only P (get_or d k read dflt).
Proof.
  intros Hread. unfold get_or. destruct (get d k); [apply Hread|apply raises_only_ok].
Qed.

(** The typed readers raise nothing but [IllTyped]. *)
Lemma raises_only_readers (P : exn -> Prop) :
  (forall field, P (IllTyped field)) ->
  forall field (v : value F),
    raises_only P (as_str field v) /\ raises_only P (as_int field v)
    /\ raises_only P (as_float field v) /\ raises_only P (as_list field v)
    /\ raises_only P (as_dict field v) /\ raises_only P (as_str_list field v).
Proof.
  intros HP field v. unfold as_str_list.
  repeat split; try (destruct v; intros e [= <-]; apply HP).
  apply raises_only_bind; [destruct v; intros e [= <-]; apply HP|].
  intros l. apply raises_only_traverse. intros a.
  destruct a; intros e [= <-]; apply HP.
Qed.

Lemma Evidence_init_raises (kw : dict F) :
  raises_only source_is_the_only_missing_field (Evidence.init (F:=F) kw).
Proof.
  unfold Evidence.init.
  destruct (filter _ (keys kw)) as [|k ?]; [|by intros e [= <-]].
  destruct (get kw "source") as [v|]; [|by intros e [= <-]].
  apply raises_only_bind; [by apply raises_only_readers|]. intros s.
  apply raises_only_bind; [|intros; apply raises_only_ok].
  apply raises_only_get_or. intros v'. by apply raises_only_readers.
Qed.

Lemma Claim_of_dict_raises (c : dict F) :
  raises_only source_is_the_only_missing_field (Claim.of_dict c).
Proof.
  unfold Claim.of_dict.
  repeat first
    [ apply Evidence_init_raises
    | apply raises_only_ok
    | apply raises_only_bind; [|intros ?]
    | apply raises_only_get_or; intros ?
    | apply raises_only_traverse; intros ?
    | by apply raises_only_readers ].
Qed.

Lemma Move_from_dict_raises (d : dict F) :
  raises_only source_is_the_only_missing_field (Move.from_dict d).
Proof.
  unfold Move.from_dict.
  repeat first
    [ apply Claim_of_dict_raises
    | apply raises_only_ok
    | apply raises_only_bind; [|intros ?]
    | apply raises_only_get_or; intros ?
    | apply raises_only_traverse; intros ?
    | by apply raises_only_readers ].
Qed.

Lemma DebateState_from_dict_raises (d : dict F) :
  raises_only source_is_the_only_missing_field (DebateState.from_dict d).
Proof.
  unfold DebateState.from_dict.
  repeat first
    [ apply Move_from_dict_raises
    | apply raises_only_ok
    | apply raises_only_bind; [|intros ?]
    | apply raises_only_get_or; intros ?
    | apply raises_only_traverse; intros ?
    | by apply raises_only_readers ].
Qed.

End FromDictErrors.

(** X4. The only field whose absence makes [Move.from_dict] or
    [DebateState.from_dict] raise is the [source] of an evidence: no other
    missing-argument error comes out of either reader. *)
Theorem from_dict_only_source_is_required {F : Type} `{Arith F} (d : dict F)
    (cls arg : string) :
  Move.from_dict d = Raise (MissingArgument cls arg)
  \/ DebateState.from_dict d = Raise (MissingArgument cls arg) ->
  cls = "Evidence" /\ arg = "source".
Proof.
  intros [Hm|Hs].
  - exact (Move_from_dict_raises d _ Hm).
  - exact (DebateState_from_dict_raises d _ Hs).
Qed.

Lemma from_dict_only_source_is_required_witness :
  "Evidence" = "Evidence" /\ "source" = "source".
Proof.
  exact (from_dict_only_source_is_required (F:=Q) sourceless_evidence_move
           "Evidence" "source" (or_introl eq_refl)).
Defined.

Section FromDictFailures.
Context {F : Type} `{Arith F}.

Lemma fails_bind_l {A B : Type} (r : result A) (g : A -> result B) :
  fails r -> fails (r ≫= g).
Proof. intros [e ->]. by exists e. Qed.

Lemma fails_bind_r {A B : Type} (r : result A) (g : A -> result B) :
  (forall a, fails (g a)) -> fails (r ≫= g).
Proof. intros Hg. destruct r as [a|e]; cbn; [apply Hg|by exists e]. Qed.

Lemma traverse_fails {A B : Type} (f : A -> result B) (l : list A) (a : A) :
  a ∈ l -> fails (f a) -> fails (traverse f l).
Proof.
  intros Hin Ha. induction l as [|a' l IH]; [by apply elem_of_nil in Hin|].
  cbn. apply elem_of_cons in Hin as [<-|Hin].
  - by apply fails_bind_l.
  - apply fails_bind_r. intros b. apply fails_bind_l. by apply IH.
Qed.

Lemma Evidence_init_unknown_key (kw : dict F) (k : string) :
  k ∈ keys kw -> k ∉ ["source"; "quote"] -> fails (Evidence.init kw).
Proof.
  intros Hin Hk. unfold Evidence.init.
  destruct (filter _ (keys kw)) as [|k' ks] eqn:Hfilter; [|by eexists].
  exfalso.
  assert (Hk' : k ∈ filter (fun k => negb (bool_decide (k ∈ ["source"; "quote"])))
                  (keys kw)).
  { apply list_elem_of_filter. split; [|done].
    by rewrite bool_decide_eq_false_2. }
  rewrite Hfilter in Hk'. by apply elem_of_nil in Hk'.
Qed.

End FromDictFailures.

(** X5. [Move.from_dict] raises on a move one of whose claims cites an
    evidence dictionary with a key other than [source] and [quote]: the
    evidence is built by passing the dictionary as keyword arguments, and an
    unknown keyword is refused. *)
Theorem from_dict_rejects_unknown_evidence_key {F : Type} `{Arith F}
    (d c e : dict F) (cs evs : list (value F)) (k : string) :
  get d "claims" = Some (VList cs) ->
  VDict c ∈ cs ->
  get c "evidence" = Some (VList evs) ->
  VDict e ∈ evs ->
  k ∈ keys e ->
  k ∉ ["source"; "quote"] ->
  fails (Move.from_dict d).
Proof.
  intros Hcs Hc Hevs He Hk Hunknown.
  unfold Move.from_dict, get_or. rewrite Hcs. cbn [as_list].
  change (Ok cs ≫= ?g) with (g cs). cbv beta.
  apply fails_bind_l.
  apply (traverse_fails _ _ (VDict c)); [done|]. cbn [as_dict].
  change (Ok c ≫= ?g) with (g c). cbv beta.
  unfold Claim.of_dict.
  do 3 (apply fails_bind_r; intros ?).
  unfold get_or. rewrite Hevs. cbn [as_list].
  change (Ok evs ≫= ?g) with (g evs). cbv beta.
  apply fails_bind_l.
  apply (traverse_fails _ _ (VDict e)); [done|]. cbn [as_dict].
  change (Ok e ≫= ?g) with (g e). cbv beta.
  by apply (Evidence_init_unknown_key e k).
Qed.

Lemma from_dict_rejects_unknown_evidence_key_witness :
  fails (Move.from_dict (F:=Q) annotated_evidence_move).
Proof.
  refine (from_dict_rejects_unknown_evidence_key (F:=Q)
            annotated_evidence_move
            [("id", VStr "M001_C1");
             ("evidence",
              VList [VDict [("source", VStr "S1"); ("url", VStr "U1")]])]
            [("source", VStr "S1"); ("url", VStr "U1")]
            _ _ "url" eq_refl _ eq_refl _ _ _).
  - apply list_elem_of_here.
  - apply list_elem_of_here.
  - repeat constructor.
  - intros Hin.
    repeat (apply elem_of_cons in Hin as [Hin|Hin]; [discriminate Hin|]).
    by apply elem_of_nil in Hin.
Defined.

(** ** memory.py: documents, forecasts and the report *)

Section MemoryDocuments.
Context {F : Type} `{Arith F}.

Lemma resolve_first_app (now fid : string) (o : bool)
    (before rest : list (Forecast.t F)) :
  (forall g, g ∈ before -> Forecast.id g <> fid) ->
  Memory.resolve_first now fid o (before ++ rest)
  = before ++ Memory.resolve_first now fid o rest.
Proof.
  induction before as [|g before IH]; intros Hno; cbn; [done|].
  rewrite (proj2 (String.eqb_neq _ _)) by (apply Hno; by left).
  rewrite IH; [done|]. intros g' Hg'. apply Hno. by right.
Qed.

(** The list splits at the first forecast that carries the id. *)
Lemma first_with_id_split (fid : string) (fs : list (Forecast.t F)) :
  match first_with_id fid fs with
  | Some f =>
      exists before after,
        fs = before ++ f :: after /\ Forecast.id f = fid
        /\ forall g, g ∈ before -> Forecast.id g <> fid
  | None => forall g, g ∈ fs -> Forecast.id g <> fid
  end.
Proof.
  unfold first_with_id. induction fs as [|g fs IH]; cbn.
  - intros g Hg. by apply elem_of_nil in Hg.
  - destruct (String.eqb_spec (Forecast.id g) fid) as [Heq|Hne].
    + exists [], fs. repeat split; [done|]. intros g' Hg'. by apply elem_of_nil in Hg'.
    + destruct (find _ fs) as [f|].
      * destruct IH as (before & after & -> & Hid & Hbefore).
        exists (g :: before), after. repeat split; [done|].
        intros g' [->|Hg']%elem_of_cons; [done|by apply Hbefore].
      * intros g' [->|Hg']%elem_of_cons; [done|by apply IH].
Qed.

End MemoryDocuments.

(** A list comprehension over an expression that may raise, in the option
    monad: it raises exactly when some element does. *)
Lemma mapM_None_iff {A B : Type} (f : A -> option B) (l : list A) :
  mapM f l = None <-> exists a, a ∈ l /\ f a = None.
Proof.
  induction l as [|a l IH]; cbn.
  - split; [done|]. intros (a & Ha & _). by apply elem_of_nil in Ha.
  - destruct (f a) as [b|] eqn:Hfa; cbn.
    + destruct (mapM f l) as [bs|]; cbn.
      * split; [done|]. intros (a' & [->|Ha']%elem_of_cons & Hnone); [congruence|].
        assert (None = Some bs) as Hcontra; [|done].
        symmetry. apply IH. by exists a'.
      * split; [|done]. intros _.
        destruct (proj1 IH eq_refl) as (a' & Ha' & Hnone).
        exists a'. split; [by right|done].
    + split; [|done]. intros _. exists a. split; [by left|done].
Qed.

(** X6. What [save_lessons], [save_forecasts] and [save_performance] hand to
    the JSON writer is decoded by the loaders into the same lessons,
    forecasts and performance table. *)
Theorem memory_documents_roundtrip {F : Type} `{Arith F} :
  (forall (now : string) (lessons : list (Lesson.t F)),
     Memory.load_json_document (Lesson.from_dict now)
       (Memory.lessons_document lessons) = Ok lessons)
  /\ (forall (now : string) (forecasts : list (Forecast.t F)),
        Memory.load_json_document (Forecast.from_dict now)
          (Memory.forecasts_document forecasts) = Ok forecasts)
  /\ (forall perf : gmap string (ExpertPerformance.t F),
        Memory.load_performance_document (Memory.performance_document perf)
        = Ok perf).
Proof.
  split; [|split].
  - intros now lessons. cbn. apply traverse_map_ok.
    intros l. exact (Lesson_from_to_dict now l).
  - intros now forecasts. cbn. apply traverse_map_ok.
    intros f. exact (Forecast_from_to_dict now f).
  - intros perf. unfold Memory.load_performance_document, Memory.performance_document.
    rewrite traverse_map_ok.
    + cbn. by rewrite list_to_map_to_list.
    + intros [k p]. cbn. by rewrite ExpertPerformance_from_to_dict.
Qed.

(** X7. [resolve_forecast] rewrites one forecast at most: the first of the
    file that carries the id. The forecasts before and after it, a later
    forecast with the same id among them, are written back as they were,
    in the same order. *)
Theorem resolve_forecast_first_match_only {F : Type} `{Arith F}
    (mm : Memory.t F) (now forecast_id : string) (outcome : bool) :
  match first_with_id forecast_id (Memory.load_forecasts mm) with
  | Some f =>
      exists before after,
        Memory.load_forecasts mm = before ++ f :: after
        /\ (forall g, g ∈ before -> Forecast.id g <> forecast_id)
        /\ Memory.load_forecasts (Memory.resolve_forecast now forecast_id outcome mm)
           = before ++ Memory.resolved_with now outcome f :: after
  | None =>
      Memory.load_forecasts (Memory.resolve_forecast now forecast_id outcome mm)
      = Memory.load_forecasts mm
  end.
Proof.
  pose proof (first_with_id_split forecast_id (Memory.load_forecasts mm)) as Hsplit.
  destruct (first_with_id forecast_id (Memory.load_forecasts mm)) as [f|].
  - destruct Hsplit as (before & after & Hfs & Hid & Hbefore).
    exists before, after. repeat split; [done..|].
    unfold Memory.resolve_forecast. rewrite Hfs. cbn.
    rewrite resolve_first_app by done. cbn.
    by rewrite Hid, String.eqb_refl.
  - unfold Memory.resolve_forecast. cbn.
    by rewrite resolve_first_no_match.
Qed.



(** X9. [check_forecasts] answers the sentinel on an empty file, and raises
    exactly when the file holds a forecast marked resolved whose outcome is
    empty: its score is missing and cannot be formatted. *)
Theorem check_forecasts_raises_iff {F : Type} `{Arith F}
    (format_4f format_percent : F -> string) (mm : Memory.t F) :
  (Memory.check_forecasts format_4f format_percent mm = None
   <-> exists f, f ∈ Memory.load_forecasts mm
                 /\ Forecast.resolved f = true /\ Forecast.outcome f = None)
  /\ (Memory.load_forecasts mm = [] ->
      Memory.check_forecasts format_4f format_percent mm
      = Some "No forecasts recorded.").
Proof.
  split; [|intros Hempty; unfold Memory.check_forecasts; by rewrite Hempty].
  unfold Memory.check_forecasts.
  destruct (Memory.load_forecasts mm) as [|f0 fs] eqn:Hfs.
  { split; [done|]. intros (f & Hf & _). by apply elem_of_nil in Hf. }
  set (forecasts := f0 :: fs).
  set (resolved := filter (fun f => Forecast.resolved f = true) forecasts).
  assert (Hline : forall f, f ∈ resolved ->
            (Memory.resolved_line format_4f format_percent f = None
             <-> Forecast.outcome f = None)).
  { intros f [Hres _]%list_elem_of_filter.
    unfold Memory.resolved_line, Forecast.brier_score. rewrite Hres. cbn.
    destruct (Forecast.outcome f); cbn; split; done. }
  assert (Hentries :
    mapM (Memory.resolved_line format_4f format_percent) resolved = None
    <-> exists f, f ∈ forecasts /\ Forecast.resolved f = true
                  /\ Forecast.outcome f = None).
  { rewrite mapM_None_iff. split.
    - intros (f & Hf & Hnone).
      pose proof Hf as [Hres Hin]%list_elem_of_filter.
      exists f. repeat split; [done..|]. by apply Hline.
    - intros (f & Hin & Hres & Hout).
      assert (Hf : f ∈ resolved) by (by apply list_elem_of_filter).
      exists f. split; [done|]. by apply Hline. }
  destruct resolved as [|r rs] eqn:Hresolved.
  - cbn. split; [done|]. intros Hex. apply Hentries in Hex. done.
  - rewrite <- Hentries.
    destruct (mapM _ (r :: rs)); cbn; split; done.
Qed.

(** ** memory.py: the performance table and the lessons *)

#[local] Set Warnings "-clear-no-such-hyp".

Section PerformanceCounters.
Context {F : Type} `{Arith F}.

Implicit Types (perf : gmap string (ExpertPerformance.t F)).
Implicit Types (targets : gmap string string).

(** The loop, seen from one expert, as the composition of the updates of
    the expert's processed moves. *)
Lemma update_fold_record targets (turns : list (Move.t F)) perf (eid : string) :
  record_of (fold_left (Memory.update_move targets) turns perf) eid
  = fold_left (fun p m => Memory.update_record targets m p)
      (turns_of turns eid) (record_of perf eid).
Proof.
  unfold turns_of.
  revert perf. induction turns as [|m turns IH]; intros perf; [done|].
  cbn [fold_left]. rewrite IH, record_of_update_move, filter_cons.
  destruct (processed m && bool_decide (Move.agent_id m = eid)).
  - by rewrite decide_True by done.
  - by rewrite decide_False by (intros []).
Qed.

Lemma update_fold_lookup_other targets (turns : list (Move.t F)) perf
    (eid : string) :
  turns_of turns eid = [] ->
  fold_left (Memory.update_move targets) turns perf !! eid = perf !! eid.
Proof.
  unfold turns_of.
  revert perf. induction turns as [|m turns IH]; intros perf; [done|].
  rewrite filter_cons. cbn [fold_left].
  destruct (processed m && bool_decide (Move.agent_id m = eid)) eqn:Hm.
  - rewrite decide_True by done. done.
  - rewrite decide_False by (intros []). intros Hnil.
    rewrite IH by done. rewrite update_move_lookup. by rewrite Hm.
Qed.

Lemma update_records_counters targets (own : list (Move.t F))
    (p : ExpertPerformance.t F) :
  let p' := fold_left (fun p m => Memory.update_record targets m p) own p in
  ExpertPerformance.expert_id p' = ExpertPerformance.expert_id p
  /\ ExpertPerformance.debates_participated p'
     = ExpertPerformance.debates_participated p + Z.of_nat (length own)
  /\ ExpertPerformance.total_claims p'
     = ExpertPerformance.total_claims p + Z.of_nat (claim_count own)
  /\ ExpertPerformance.challenges_made p'
     = ExpertPerformance.challenges_made p
       + Z.of_nat (sum_list_with (fun m => length (Move.targets m)) own).
Proof.
  revert p. induction own as [|m own IH]; intros p; cbn zeta.
  - cbn. repeat split; lia.
  - cbn [fold_left]. destruct (IH (Memory.update_record targets m p))
      as (-> & -> & -> & ->).
    unfold claim_count. cbn. repeat split; lia.
Qed.

Lemma update_move_dom targets perf (move : Move.t F) :
  dom (Memory.update_move targets perf move)
  = if processed move then {[Move.agent_id move]} ∪ dom perf else dom perf.
Proof.
  unfold Memory.update_move, processed.
  destruct (bool_decide (Move.move_type move ∈ ["error"; "synthesize"])); cbn;
    [done|].
  destruct (perf !! Move.agent_id move) as [p|] eqn:Hp.
  - rewrite Hp. by rewrite dom_insert_L.
  - rewrite lookup_insert_eq, !dom_insert_L. set_solver.
Qed.

End PerformanceCounters.

(** X10. After [update_panel_performance], the record of an expert counts one
    debate more for every processed move of the expert (each turn, not each
    debate), as many claims more as those moves hold, and as many challenges
    made more as those moves have targets; the expert id of the record is
    unchanged. *)
Theorem performance_counters_per_move {F : Type} `{Arith F}
    (state : DebateState.t F) (mm : Memory.t F) (eid : string) :
  ExpertPerformance.expert_id
    (record_of (Memory.load_performance (Memory.update_panel_performance state mm)) eid)
  = ExpertPerformance.expert_id (record_of (Memory.load_performance mm) eid)
  /\ ExpertPerformance.debates_participated
       (record_of (Memory.load_performance (Memory.update_panel_performance state mm)) eid)
     = ExpertPerformance.debates_participated
         (record_of (Memory.load_performance mm) eid)
       + Z.of_nat (length (turns_of (DebateState.moves state) eid))
  /\ ExpertPerformance.total_claims
       (record_of (Memory.load_performance (Memory.update_panel_performance state mm)) eid)
     = ExpertPerformance.total_claims (record_of (Memory.load_performance mm) eid)
       + Z.of_nat (claim_count (turns_of (DebateState.moves state) eid))
  /\ ExpertPerformance.challenges_made
       (record_of (Memory.load_performance (Memory.update_panel_performance state mm)) eid)
     = ExpertPerformance.challenges_made (record_of (Memory.load_performance mm) eid)
       + Z.of_nat (sum_list_with (fun m => length (Move.targets m))
                     (turns_of (DebateState.moves state) eid)).
Proof.
  unfold Memory.update_panel_performance.
  cbn [Memory.load_performance Memory.save_performance Memory.performance_file].
  rewrite update_fold_record.
  apply (update_records_counters _ (turns_of (DebateState.moves state) eid)).
Qed.

(** X11. [update_panel_performance] writes a record for exactly the experts
    that had one and the agents of the processed moves; the record of an
    expert with no processed move in the debate, and the other three files,
    are left as they were. Error and synthesis moves create no record. *)
Theorem performance_table_domain {F : Type} `{Arith F}
    (state : DebateState.t F) (mm : Memory.t F) :
  dom (Memory.load_performance (Memory.update_panel_performance state mm))
  = dom (Memory.load_performance mm)
    ∪ list_to_set (map Move.agent_id (filter (fun m => processed m = true)
                                        (DebateState.moves state)))
  /\ (forall eid,
        turns_of (DebateState.moves state) eid = [] ->
        Memory.load_performance (Memory.update_panel_performance state mm) !! eid
        = Memory.load_performance mm !! eid)
  /\ Memory.bootstrap_file (Memory.update_panel_performance state mm)
     = Memory.bootstrap_file mm
  /\ Memory.lessons_file (Memory.update_panel_performance state mm)
     = Memory.lessons_file mm
  /\ Memory.forecasts_file (Memory.update_panel_performance state mm)
     = Memory.forecasts_file mm.
Proof.
  unfold Memory.update_panel_performance.
  cbn [Memory.load_performance Memory.save_performance Memory.performance_file].
  split; [|split; [|done]].
  - generalize (Memory.all_targets (DebateState.moves state)) as targets.
    generalize (Memory.load_performance mm) as perf.
    induction (DebateState.moves state) as [|m ms IH]; intros perf targets.
    + cbn. set_solver.
    + cbn [fold_left]. rewrite IH, update_move_dom, filter_cons.
      destruct (processed m); [rewrite decide_True by done|
                               rewrite decide_False by done]; cbn; set_solver.
  - intros eid Hnone. by apply update_fold_lookup_other.
Qed.

Section RunningMean.

Implicit Types (p : ExpertPerformance.t Q).

(** One update keeps the product of the average and the total equal to the
    sum of the confidences counted so far. *)
Lemma update_record_weighted_sum (targets : gmap string string)
    (m : Move.t Q) p :
  0 <= ExpertPerformance.total_claims p ->
  (ExpertPerformance.avg_confidence (Memory.update_record targets m p)
   * inject_Z (ExpertPerformance.total_claims (Memory.update_record targets m p))
   == ExpertPerformance.avg_confidence p
      * inject_Z (ExpertPerformance.total_claims p)
      + fsum (map Claim.confidence (Move.claims m)))%Q.
Proof.
  intros Hnonneg.
  destruct (Move.claims m) as [|c cs] eqn:Hclaims.
  - unfold Memory.update_record. rewrite Hclaims.
    cbn -[Qplus Qmult Qdiv inject_Z].
    rewrite Z.add_0_r. unfold fsum; cbn -[Qplus Qmult Qdiv inject_Z].
    change (0 <? Z.of_nat 0) with false. cbv iota. ring.
  - unfold Memory.update_record. rewrite Hclaims.
    set (n := Z.of_nat (length (c :: cs))).
    assert (Hn : 0 < n) by (unfold n; cbn [length]; lia).
    rewrite (proj2 (Z.ltb_lt 0 n)) by done.
    rewrite (proj2 (Z.ltb_lt 0 (ExpertPerformance.total_claims p + n))) by lia.
    replace (ExpertPerformance.total_claims p + n - n)
      with (ExpertPerformance.total_claims p) by lia.
    cbn -[Qplus Qmult Qdiv inject_Z fsum n].
    set (s := fsum (map Claim.confidence (c :: cs))).
    assert (Hn0 : ~ (inject_Z n == 0)%Q).
    { intros Heq. apply (inject_Z_injective n 0) in Heq. lia. }
    assert (Ht0 : ~ (inject_Z (ExpertPerformance.total_claims p + n) == 0)%Q).
    { intros Heq.
      apply (inject_Z_injective (ExpertPerformance.total_claims p + n) 0) in Heq.
      lia. }
    field. split; assumption.
Qed.

Lemma update_record_total (targets : gmap string string) (m : Move.t Q) p :
  ExpertPerformance.total_claims (Memory.update_record targets m p)
  = ExpertPerformance.total_claims p + Z.of_nat (length (Move.claims m)).
Proof. reflexivity. Qed.

Lemma update_records_weighted_sum (targets : gmap string string)
    (own : list (Move.t Q)) p :
  0 <= ExpertPerformance.total_claims p ->
  (ExpertPerformance.avg_confidence
     (fold_left (fun p m => Memory.update_record targets m p) own p)
   * inject_Z
       (ExpertPerformance.total_claims
          (fold_left (fun p m => Memory.update_record targets m p) own p))
   == ExpertPerformance.avg_confidence p
      * inject_Z (ExpertPerformance.total_claims p)
      + confidence_sum own)%Q.
Proof.
  revert p. induction own as [|m own IH]; intros p Hnonneg.
  - cbn -[Qplus Qmult inject_Z]. ring.
  - cbn [fold_left confidence_sum fold_right].
    rewrite IH by (rewrite update_record_total; lia).
    rewrite update_record_weighted_sum by done. unfold confidence_sum. ring.
Qed.

End RunningMean.

(** X12. In exact arithmetic the running average is the true mean: for an
    expert with no record before the debate and at least one claim in its
    processed moves, the average confidence [update_panel_performance]
    writes is the sum of the confidences of all those claims divided by
    their number. *)
Theorem running_mean_is_the_mean (state : DebateState.t Q) (mm : Memory.t Q)
    (eid : string) :
  Memory.load_performance mm !! eid = None ->
  (0 < claim_count (turns_of (DebateState.moves state) eid))%nat ->
  (ExpertPerformance.avg_confidence
     (record_of (Memory.load_performance (Memory.update_panel_performance state mm)) eid)
   == confidence_sum (turns_of (DebateState.moves state) eid)
      / inject_Z (Z.of_nat (claim_count (turns_of (DebateState.moves state) eid))))%Q.
Proof.
  intros Hnew Hcount.
  unfold Memory.update_panel_performance.
  cbn [Memory.load_performance Memory.save_performance Memory.performance_file].
  rewrite update_fold_record.
  set (own := turns_of (DebateState.moves state) eid) in *.
  set (targets := Memory.all_targets (DebateState.moves state)).
  set (p0 := record_of (Memory.load_performance mm) eid).
  assert (Hp0 : p0 = ExpertPerformance.new eid).
  { unfold p0, record_of. by rewrite Hnew. }
  pose proof (update_records_weighted_sum targets own p0) as Hsum.
  pose proof (update_records_counters targets own p0) as (_ & _ & Htotal & _).
  cbv zeta in Htotal. rewrite Htotal in Hsum. rewrite Hp0 in Hsum, Htotal.
  cbn [ExpertPerformance.new ExpertPerformance.total_claims
       ExpertPerformance.avg_confidence] in Hsum, Htotal.
  specialize (Hsum ltac:(lia)).
  rewrite Z.add_0_l in Hsum.
  assert (Hn0 : ~ (inject_Z (Z.of_nat (claim_count own)) == 0)%Q).
  { intros Heq.
    apply (inject_Z_injective (Z.of_nat (claim_count own)) 0) in Heq. lia. }
  rewrite Hp0.
  apply (Qmult_inj_r _ _ (inject_Z (Z.of_nat (claim_count own)))); [done|].
  rewrite Hsum. cbn -[Qplus Qmult Qdiv inject_Z]. field. done.
Qed.

Lemma running_mean_is_the_mean_witness :
  (ExpertPerformance.avg_confidence
     (record_of
        (Memory.load_performance
           (Memory.update_panel_performance test_state empty_memory))
        "expert_a")
   == confidence_sum (turns_of (DebateState.moves test_state) "expert_a")
      / inject_Z
          (Z.of_nat (claim_count (turns_of (DebateState.moves test_state) "expert_a"))))%Q.
Proof.
  refine (running_mean_is_the_mean test_state empty_memory "expert_a" _ _).
  - reflexivity.
  - vm_compute. lia.
Defined.

(** X13. [load_lessons] after [save_lessons] returns the bootstrap lessons
    followed by the saved ones: saving what [load_lessons] returned writes
    the bootstrap lessons into the learned file, and the next load holds
    them twice. *)
Theorem save_loaded_lessons_duplicates_bootstrap {F : Type} `{Arith F}
    (mm : Memory.t F) (lessons : list (Lesson.t F)) :
  Memory.load_lessons (Memory.save_lessons lessons mm)
  = Memory.load_json_list (Memory.bootstrap_file mm) ++ lessons
  /\ Memory.load_lessons (Memory.save_lessons (Memory.load_lessons mm) mm)
     = Memory.load_json_list (Memory.bootstrap_file mm)
       ++ Memory.load_json_list (Memory.bootstrap_file mm)
       ++ Memory.load_json_list (Memory.lessons_file mm)
  /\ Memory.bootstrap_file (Memory.save_lessons lessons mm)
     = Memory.bootstrap_file mm.
Proof.
  assert (Hsave : forall ls,
            Memory.load_lessons (Memory.save_lessons ls mm)
            = Memory.load_json_list (Memory.bootstrap_file mm) ++ ls).
  { intros ls. by rewrite load_lessons_app. }
  split; [apply Hsave|]. split; [|done].
  by rewrite Hsave, load_lessons_app.
Qed.

(** ** runner.py, loader.py and cost.py: turns, warnings and tokens *)

Section AgentsTable.

(** The dictionary the constructor fills, one expert after the other: the
    last expert under an id is the one the id finds. *)
Lemma agents_fold_lookup (model : string) (experts : list Expert.t)
    (acc : gmap string DebateAgent.t) (agent_id : string) :
  fold_left
    (fun acc expert =>
       <[Expert.id expert := DebateAgent.mk expert model false]> acc)
    experts acc !! agent_id
  = match last_with_id agent_id experts with
    | Some e => Some (DebateAgent.mk e model false)
    | None => acc !! agent_id
    end.
Proof.
  unfold last_with_id.
  revert acc. induction experts as [|e es IH]; intros acc; [done|].
  cbn [fold_left]. rewrite IH, filter_cons.
  destruct (decide (Expert.id e = agent_id)) as [Heq|Hne].
  - rewrite last_cons. destruct (last (filter _ es)); [done|].
    by rewrite Heq, lookup_insert_eq.
  - destruct (last (filter _ es)); [done|]. by rewrite lookup_insert_ne.
Qed.

Lemma last_with_id_None (agent_id : string) (experts : list Expert.t) :
  last_with_id agent_id experts = None <-> agent_id ∉ map Expert.id experts.
Proof.
  unfold last_with_id. rewrite last_None.
  induction experts as [|e es IH]; [cbn; split; [intros _; apply not_elem_of_nil|done]|].
  rewrite filter_cons. cbn [map]. rewrite not_elem_of_cons.
  destruct (decide (Expert.id e = agent_id)) as [Heq|Hne].
  - split; [done|]. intros [Hne _]. by destruct Hne.
  - rewrite IH. split; [intros ?; split; [congruence|done]|by intros [_ ?]].
Qed.

Lemma agents_lookup_None (self : Runner.t) (agent_id : string) :
  Runner.agents self !! agent_id = None
  <-> known_agent (Runner.panel self) agent_id = false.
Proof.
  unfold Runner.agents, known_agent, Panel.list_ids.
  rewrite bool_decide_eq_false.
  destruct (decide (agent_id = "synthesizer")) as [->|Hne].
  - rewrite lookup_insert_eq. split; [done|]. intros Hnot. destruct Hnot. by left.
  - rewrite lookup_insert_ne by done. rewrite agents_fold_lookup, lookup_empty.
    pose proof (last_with_id_None agent_id (Panel.experts (Runner.panel self))) as Hlast.
    destruct (last_with_id agent_id _).
    + split; [done|]. intros Hnot. exfalso.
      assert (Hin : agent_id ∈ map Expert.id (Panel.experts (Runner.panel self))).
      { destruct (decide (agent_id ∈ map Expert.id (Panel.experts (Runner.panel self))));
          [done|]. by apply Hlast in n. }
      apply Hnot. by right.
    + split; [|done]. intros _ [?|Hin]; [done|]. by apply (proj1 Hlast).
Qed.

End AgentsTable.

(** X14. The table of agents of a runner: the reserved id finds the built-in
    synthesizer on the synthesis model, even when the panel has an expert
    under that id; another id finds the last expert of the panel under the
    id (where [Panel.get_expert] returns the first), on the agents' model;
    and an id finds nothing exactly when it is neither reserved nor the id
    of an expert. *)
Theorem runner_agents_lookup (self : Runner.t) (agent_id : string) :
  Runner.agents self !! "synthesizer"
  = Some (DebateAgent.mk Runner.SYNTHESIZER_EXPERT (Runner.synth_model self) true)
  /\ (agent_id <> "synthesizer" ->
      Runner.agents self !! agent_id
      = (fun e => DebateAgent.mk e (Runner.model self) false)
          <$> last_with_id agent_id (Panel.experts (Runner.panel self)))
  /\ (Runner.agents self !! agent_id = None
      <-> agent_id <> "synthesizer"
          /\ agent_id ∉ Panel.list_ids (Runner.panel self)).
Proof.
  split; [|split].
  - unfold Runner.agents. by rewrite lookup_insert_eq.
  - intros Hne. unfold Runner.agents.
    rewrite lookup_insert_ne by done. rewrite agents_fold_lookup, lookup_empty.
    by destruct (last_with_id agent_id _).
  - rewrite agents_lookup_None. unfold known_agent.
    rewrite bool_decide_eq_false. tauto.
Qed.

Section Validation.

Lemma validate_round_length (rnd : RoundSpec.t) (panel : Panel.t)
    (agent_ids : list string) (warnings : list string) :
  length
    (fold_left
       (fun warnings agent_id =>
          if String.eqb agent_id "synthesizer" then warnings
          else if bool_decide
                    (agent_id ∉ (list_to_set (Panel.list_ids panel) : gset string))
               then warnings
                    ++ [Loader.warning rnd agent_id panel
                          (list_to_set (Panel.list_ids panel))]
               else warnings)
       agent_ids warnings)
  = (length warnings
     + length (filter (fun a => known_agent panel a = false) agent_ids))%nat.
Proof.
  revert warnings. induction agent_ids as [|a ids IH]; intros warnings.
  - cbn. lia.
  - cbn [fold_left]. rewrite IH, filter_cons. clear IH.
    destruct (String.eqb_spec a "synthesizer") as [->|Hne].
    + assert (Hknown : known_agent panel "synthesizer" = true)
        by (apply bool_decide_eq_true; by left).
      rewrite decide_False by (by rewrite Hknown). done.
    + case_bool_decide as Hin.
      * assert (Hknown : known_agent panel a = false).
        { apply bool_decide_eq_false. intros [?|Hin']; [done|].
          apply Hin. by apply elem_of_list_to_set. }
        rewrite decide_True by done. rewrite length_app. cbn. lia.
      * assert (Hknown : known_agent panel a = true).
        { apply bool_decide_eq_true. right.
          by apply elem_of_list_to_set in Hin. }
        rewrite decide_False by (by rewrite Hknown). done.
Qed.

Lemma validate_length (spec : DebateSpec.t) (panel : Panel.t) :
  length (Loader.validate_spec_against_panel spec panel)
  = length (filter (fun a => known_agent panel a = false) (slots spec)).
Proof.
  unfold Loader.validate_spec_against_panel, slots.
  assert (Hgen : forall rounds (warnings : list string),
    length
      (fold_left
         (fun warnings rnd =>
            fold_left
              (fun warnings agent_id =>
                 if String.eqb agent_id "synthesizer" then warnings
                 else if bool_decide
                           (agent_id ∉ (list_to_set (Panel.list_ids panel) : gset string))
                      then warnings
                           ++ [Loader.warning rnd agent_id panel
                                 (list_to_set (Panel.list_ids panel))]
                      else warnings)
              (RoundSpec.agents rnd) warnings)
         rounds warnings)
    = (length warnings
       + length (filter (fun a => known_agent panel a = false)
                   (concat (map RoundSpec.agents rounds))))%nat).
  { induction rounds as [|r rounds IH]; intros warnings; [cbn; lia|].
    cbn [fold_left map concat]. rewrite IH, validate_round_length.
    rewrite filter_app, length_app. lia. }
  exact (Hgen (DebateSpec.rounds spec) []).
Qed.

End Validation.

(** X15. [validate_spec_against_panel] gives one warning for each turn of the
    specification that the runner built from the same panel skips: an agent
    id that is neither the reserved id nor the id of an expert. It gives no
    warning exactly when the runner finds an agent at every turn. *)
Theorem validation_counts_skipped_turns (self : Runner.t) :
  length (Loader.validate_spec_against_panel (Runner.spec self) (Runner.panel self))
  = length (filter (fun a => Runner.agents self !! a = None)
              (slots (Runner.spec self)))
  /\ (Loader.validate_spec_against_panel (Runner.spec self) (Runner.panel self) = []
      <-> forall a, a ∈ slots (Runner.spec self) ->
                    is_Some (Runner.agents self !! a)).
Proof.
  assert (Hlen :
    length (Loader.validate_spec_against_panel (Runner.spec self) (Runner.panel self))
    = length (filter (fun a => Runner.agents self !! a = None)
                (slots (Runner.spec self)))).
  { rewrite validate_length. f_equal. apply list_filter_iff.
    intros a. symmetry. apply agents_lookup_None. }
  split; [exact Hlen|].
  rewrite <- length_zero_iff_nil, Hlen, length_zero_iff_nil.
  split.
  - intros Hnil a Ha.
    destruct (Runner.agents self !! a) eqn:Hlookup; [done|].
    assert (Hin : a ∈ filter (fun a => Runner.agents self !! a = None)
                    (slots (Runner.spec self)))
      by (by apply list_elem_of_filter).
    rewrite Hnil in Hin. by apply elem_of_nil in Hin.
  - intros Hall.
    destruct (filter _ (slots (Runner.spec self))) as [|a l] eqn:Hfilter; [done|].
    assert (Hin : a ∈ filter (fun a => Runner.agents self !! a = None)
                    (slots (Runner.spec self)))
      by (rewrite Hfilter; left).
    apply list_elem_of_filter in Hin as [Hnone Hin].
    destruct (Hall a Hin) as [? Hsome]. congruence.
Qed.

Section RunAccounting.
Context {F : Type} `{Arith F}.
Variable make_move :
  DebateAgent.t -> RoundSpec.t -> string -> list (Move.t F) -> string ->
  string -> string -> Runner.outcome F.
Variable write_move_file : nat -> Z -> string -> Move.t F -> option string.
Variable error_time : nat -> string.

#[local] Abbreviation turn := (Runner.turn make_move write_move_file error_time).
#[local] Abbreviation run_agents :=
  (Runner.run_agents make_move write_move_file error_time).
#[local] Abbreviation run_rounds :=
  (Runner.run_rounds make_move write_move_file error_time).

Lemma foldr_tokens_snoc (tokens : Move.t F -> Z) (moves : list (Move.t F))
    (m : Move.t F) :
  foldr (fun m acc => tokens m + acc) 0 (moves ++ [m])
  = foldr (fun m acc => tokens m + acc) 0 moves + tokens m.
Proof. induction moves as [|m' ms IH]; cbn; lia. Qed.

(** The running totals are the sums over the recorded moves: a turn adds a
    returned move with its tokens, and an error move with none. *)
Lemma turn_keeps_totals (self : Runner.t) (rnd : RoundSpec.t)
    (acc : DebateState.t F * nat) (agent_id : string) :
  DebateState.total_input_tokens acc.1 = sum_input_tokens (DebateState.moves acc.1)
  /\ DebateState.total_output_tokens acc.1 = sum_output_tokens (DebateState.moves acc.1) ->
  DebateState.total_input_tokens (turn self rnd acc agent_id).1
  = sum_input_tokens (DebateState.moves (turn self rnd acc agent_id).1)
  /\ DebateState.total_output_tokens (turn self rnd acc agent_id).1
     = sum_output_tokens (DebateState.moves (turn self rnd acc agent_id).1).
Proof.
  destruct acc as [state counter]. cbn [fst]. intros [Hin Hout].
  unfold Runner.turn, sum_input_tokens, sum_output_tokens in *.
  destruct (Runner.agents self !! agent_id) as [agent|]; [|done].
  destruct (make_move _ _ _ _ _ _ _) as [move|e]; cbn.
  - destruct (write_move_file _ _ _ _); cbn;
      rewrite !(foldr_tokens_snoc Move.input_tokens),
              !(foldr_tokens_snoc Move.output_tokens); cbn; lia.
  - rewrite (foldr_tokens_snoc Move.input_tokens),
            (foldr_tokens_snoc Move.output_tokens); cbn; lia.
Qed.

Lemma run_rounds_keeps_totals (self : Runner.t) (rounds : list RoundSpec.t)
    (acc : DebateState.t F * nat) :
  DebateState.total_input_tokens acc.1 = sum_input_tokens (DebateState.moves acc.1)
  /\ DebateState.total_output_tokens acc.1 = sum_output_tokens (DebateState.moves acc.1) ->
  DebateState.total_input_tokens (run_rounds self rounds acc).1
  = sum_input_tokens (DebateState.moves (run_rounds self rounds acc).1)
  /\ DebateState.total_output_tokens (run_rounds self rounds acc).1
     = sum_output_tokens (DebateState.moves (run_rounds self rounds acc).1).
Proof.
  revert acc. induction rounds as [|r rounds IH]; intros acc Hacc; [done|].
  rewrite run_rounds_cons. apply IH. clear IH.
  revert acc Hacc. induction (RoundSpec.agents r) as [|a ids IHa]; intros acc Hacc;
    [done|].
  rewrite run_agents_cons. apply IHa. by apply turn_keeps_totals.
Qed.




End RunAccounting.

(** X16. The token totals of the state [run] returns are the sums of the
    tokens of its moves, whatever the language model and the file system
    do: a returned move is counted when it is appended, also when writing
    its file then fails, and an error move carries no tokens. *)
Theorem run_token_totals {F : Type} `{Arith F}
    (make_move :
       DebateAgent.t -> RoundSpec.t -> string -> list (Move.t F) -> string ->
       string -> string -> Runner.outcome F)
    (write_move_file : nat -> Z -> string -> Move.t F -> option string)
    (started : string) (error_time : nat -> string) (finished : string)
    (self : Runner.t) :
  DebateState.total_input_tokens
    (Runner.run make_move write_move_file started error_time finished self)
  = sum_input_tokens
      (DebateState.moves
         (Runner.run make_move write_move_file started error_time finished self))
  /\ DebateState.total_output_tokens
       (Runner.run make_move write_move_file started error_time finished self)
     = sum_output_tokens
         (DebateState.moves
            (Runner.run make_move write_move_file started error_time finished self)).
Proof.
  unfold Runner.run.
  pose proof (run_rounds_keeps_totals make_move write_move_file error_time self
                (DebateSpec.rounds (Runner.spec self))
                (Runner.initial_state started self, 1%nat)) as Hkeep.
  destruct (Runner.run_rounds _ _ _ _ _ _) as [state counter].
  cbn in *. by apply Hkeep.
Qed.



Section CostFacts.
Context {F : Type} `{Arith F}.


Lemma estimate_tally_fold (rounds : list RoundSpec.t) (acc : Cost.tally) :
  Cost.total_input (fold_left Cost.estimate_round rounds acc)
  = Cost.total_input acc + 4000 * Z.of_nat (regular_turns rounds)
  /\ Cost.total_output (fold_left Cost.estimate_round rounds acc)
     = Cost.total_output acc + 1200 * Z.of_nat (regular_turns rounds)
  /\ Cost.total_synth_output (fold_left Cost.estimate_round rounds acc)
     = Cost.total_synth_output acc + 3600 * Z.of_nat (synthesis_rounds rounds)
  /\ map Cost.detail_is_synthesis
       (Cost.rounds_detail (fold_left Cost.estimate_round rounds acc))
     = map Cost.detail_is_synthesis (Cost.rounds_detail acc)
       ++ map synthesis_round rounds.
Proof.
  unfold regular_turns, synthesis_rounds.
  revert acc. induction rounds as [|r rounds IH]; intros acc.
  - cbn. rewrite app_nil_r. repeat split; first [lia | done].
  - cbn [fold_left]. destruct (IH (Cost.estimate_round acc r)) as (-> & -> & -> & ->).
    rewrite !filter_cons. unfold Cost.estimate_round. fold (synthesis_round r).
    destruct (synthesis_round r) eqn:Hsynth.
    + rewrite decide_False by done. rewrite decide_True by done.
      cbn. rewrite map_app, <- app_assoc. cbn. rewrite Hsynth.
      unfold Cost.AVG_SYSTEM_PROMPT_TOKENS, Cost.AVG_PROBLEM_CONTEXT_TOKENS,
        Cost.AVG_PRIOR_MOVES_TOKENS, Cost.AVG_ROUND_PROMPT_TOKENS,
        Cost.AVG_OUTPUT_TOKENS.
      repeat split; first [lia | done].
    + rewrite decide_True by done. rewrite decide_False by done.
      cbn. rewrite map_app, <- app_assoc. cbn. rewrite Hsynth.
      unfold Cost.AVG_SYSTEM_PROMPT_TOKENS, Cost.AVG_PROBLEM_CONTEXT_TOKENS,
        Cost.AVG_PRIOR_MOVES_TOKENS, Cost.AVG_ROUND_PROMPT_TOKENS,
        Cost.AVG_OUTPUT_TOKENS.
      repeat split; first [lia | done].
Qed.

Lemma api_calls_fold (rounds : list RoundSpec.t) (n : Z) :
  fold_left (fun n r => n + Z.of_nat (length (RoundSpec.agents r))) rounds n
  = n + Z.of_nat (length (concat (map RoundSpec.agents rounds))).
Proof.
  revert n. induction rounds as [|r rounds IH]; intros n; cbn; [lia|].
  rewrite IH, length_app. lia.
Qed.

End CostFacts.


(** X19. The estimate of a dry run counts one call per agent id of the
    specification, known to the panel or not; it plans 1200 output tokens
    for each turn of a round that is not a synthesis and 3600 output tokens
    for each synthesis round, a round being a synthesis only when its agents
    are the synthesizer alone. *)
Theorem estimate_cost_counts {F : Type} `{Arith F} (round_to : nat -> F -> F)
    (spec : DebateSpec.t) (model synth_model : string) :
  Cost.total_api_calls (Cost.estimate_cost round_to spec model synth_model)
  = Z.of_nat (length (slots spec))
  /\ Cost.total_rounds (Cost.estimate_cost round_to spec model synth_model)
     = Z.of_nat (length (DebateSpec.rounds spec))
  /\ Cost.estimated_output_tokens (Cost.estimate_cost round_to spec model synth_model)
     = 1200 * Z.of_nat (regular_turns (DebateSpec.rounds spec))
       + 3600 * Z.of_nat (synthesis_rounds (DebateSpec.rounds spec))
  /\ map Cost.detail_is_synthesis
       (Cost.rounds (Cost.estimate_cost round_to spec model synth_model))
     = map synthesis_round (DebateSpec.rounds spec).
Proof.
  unfold Cost.estimate_cost, Cost.estimate_tally. cbn.
  destruct (estimate_tally_fold (DebateSpec.rounds spec) (Cost.mk_tally [] 0 0 0 0))
    as (Hin & Hout & Hsout & Hdetail).
  cbn in Hin, Hout, Hsout, Hdetail.
  rewrite api_calls_fold, Hout, Hsout, Hdetail.
  repeat split; try done; lia.
Qed.

Section RunCount.
Context {F : Type} `{Arith F}.
Variable make_move :
  DebateAgent.t -> RoundSpec.t -> string -> list (Move.t F) -> string ->
  string -> string -> Runner.outcome F.
Variable write_move_file : nat -> Z -> string -> Move.t F -> option string.
Variable error_time : nat -> string.



End RunCount.




Section LoadSpec.
Context {F : Type}.

Lemma get_or_Some {A : Type} (d : dict F) (k : string)
    (read : string -> value F -> result A) (dflt : A) (v : value F) :
  get d k = Some v -> get_or d k read dflt = read k v.
Proof. unfold get_or. by intros ->. Qed.

Lemma get_or_None {A : Type} (d : dict F) (k : string)
    (read : string -> value F -> result A) (dflt : A) :
  get d k = None -> get_or d k read dflt = Ok dflt.
Proof. unfold get_or. by intros ->. Qed.

Lemma load_rounds_raise (rs : list (value F)) (e : exn) :
  fold_left (fun acc r => rounds ← acc; Loader.load_round rounds r) rs (Raise e)
  = Raise e.
Proof. induction rs as [|r rs IH]; [done|]. cbn [fold_left]. exact IH. Qed.

(** The loop appends one round for each entry, and numbers an entry
    without [number] by the position it takes. *)
Lemma load_rounds_positions (rs : list (value F)) (rounds0 rounds : list RoundSpec.t) :
  fold_left (fun acc r => rounds ← acc; Loader.load_round rounds r) rs (Ok rounds0)
  = Ok rounds ->
  exists new,
    rounds = rounds0 ++ new /\ length new = length rs
    /\ forall i d,
         rs !! i = Some (VDict d) ->
         exists rnd,
           new !! i = Some rnd
           /\ (get d "number" = None ->
               RoundSpec.number rnd = Z.of_nat (length rounds0 + i) + 1)
           /\ (forall z, get d "number" = Some (VInt z) -> RoundSpec.number rnd = z).
Proof.
  revert rounds0. induction rs as [|r rs IH]; intros rounds0; cbn [fold_left].
  - intros [= <-]. exists []. rewrite app_nil_r. split; [done|]. split; [done|].
    intros i d Hi. by rewrite lookup_nil in Hi.
  - change (Ok rounds0 ≫= ?g) with (g rounds0). cbv beta.
    destruct (Loader.load_round rounds0 r) as [rounds1|e] eqn:Hround;
      [|by rewrite load_rounds_raise].
    intros Hfold. destruct (IH _ Hfold) as (new & -> & Hlen & Hnew).
    unfold Loader.load_round in Hround.
    destruct r as [|b|z|x|s|l|d]; try (by cbn in Hround).
    cbn [as_dict] in Hround.
    change (Ok d ≫= ?g) with (g d) in Hround. cbv beta in Hround.
    destruct (get d "number") as [v|] eqn:Hnumber.
    + rewrite (get_or_Some _ _ _ _ _ Hnumber) in Hround.
      destruct v as [|b|z|x|s|l|d0]; try (by cbn in Hround).
      cbn [as_int] in Hround.
      change (Ok z ≫= ?g) with (g z) in Hround. cbv beta in Hround.
      destruct (get_or d "focus" as_str "") as [fo|]; [|discriminate Hround].
      destruct (get_or d "question" as_str "") as [qu|]; [|discriminate Hround].
      destruct (get_or d "agents" as_str_list []) as [ag|]; [|discriminate Hround].
      cbn in Hround. injection Hround as <-.
      exists (RoundSpec.mk z fo qu ag :: new).
      rewrite <- app_assoc. split; [done|]. split; [cbn; lia|].
      intros [|i] d' Hi; cbn in Hi.
      * injection Hi as <-. eexists. split; [done|]. rewrite Hnumber.
        split; [done|]. by intros z' [= <-].
      * destruct (Hnew i d' Hi) as (rnd & Hrnd & Hpos & Hnum).
        exists rnd. split; [done|]. split; [|done].
        intros Hnone. rewrite (Hpos Hnone), length_app. cbn. lia.
    + rewrite (get_or_None _ _ _ _ Hnumber) in Hround.
      change (Ok (Z.of_nat (length rounds0) + 1) ≫= ?g)
        with (g (Z.of_nat (length rounds0) + 1)) in Hround.
      cbv beta in Hround.
      destruct (get_or d "focus" as_str "") as [fo|]; [|discriminate Hround].
      destruct (get_or d "question" as_str "") as [qu|]; [|discriminate Hround].
      destruct (get_or d "agents" as_str_list []) as [ag|]; [|discriminate Hround].
      cbn in Hround. injection Hround as <-.
      eexists (_ :: new).
      rewrite <- app_assoc. split; [done|]. split; [cbn; lia|].
      intros [|i] d' Hi; cbn in Hi.
      * injection Hi as <-. eexists. split; [done|]. rewrite Hnumber.
        split; [intros _; cbn; lia|done].
      * destruct (Hnew i d' Hi) as (rnd & Hrnd & Hpos & Hnum).
        exists rnd. split; [done|]. split; [|done].
        intros Hnone. rewrite (Hpos Hnone), length_app. cbn. lia.
Qed.

End LoadSpec.

(** X21. A specification [load_spec] accepts has one round for each entry of
    the file's [rounds], in the order of the file; a round written without
    a [number] is numbered by its position, counted from one, whatever
    numbers the other rounds carry, and a round written with one keeps
    it. *)
Theorem load_spec_numbers_by_position {F : Type} (stem : string)
    (data : dict F) (rs : list (value F)) (spec : DebateSpec.t) :
  Loader.load_spec stem data = Ok spec ->
  get data "rounds" = Some (VList rs) ->
  length (DebateSpec.rounds spec) = length rs
  /\ forall i d,
       rs !! i = Some (VDict d) ->
       exists rnd,
         DebateSpec.rounds spec !! i = Some rnd
         /\ (get d "number" = None -> RoundSpec.number rnd = Z.of_nat i + 1)
         /\ (forall z, get d "number" = Some (VInt z) -> RoundSpec.number rnd = z).
Proof.
  intros Hload Hrs. unfold Loader.load_spec in Hload.
  destruct (get_or data "title" as_str stem) as [ti|]; [|discriminate Hload].
  destruct (get_or data "context" as_str "") as [cx|]; [|discriminate Hload].
  destruct (get_or data "synthesizer_prompt" as_str "") as [sp|];
    [|discriminate Hload].
  unfold get_or in Hload. rewrite Hrs in Hload. cbn [as_list] in Hload.
  cbn -[fold_left] in Hload.
  destruct (fold_left _ rs (Ok [])) as [rounds|e] eqn:Hfold; [|discriminate Hload].
  cbn in Hload. injection Hload as <-. cbn [DebateSpec.rounds].
  destruct (load_rounds_positions rs [] rounds Hfold) as (new & -> & Hlen & Hnew).
  cbn [app]. split; [done|]. exact Hnew.
Qed.

Lemma load_spec_numbers_by_position_witness :
  length (DebateSpec.rounds test_spec_loaded) = length (test_rounds_data (F:=Q))
  /\ forall i d,
       test_rounds_data (F:=Q) !! i = Some (VDict d) ->
       exists rnd,
         DebateSpec.rounds test_spec_loaded !! i = Some rnd
         /\ (get d "number" = None -> RoundSpec.number rnd = Z.of_nat i + 1)
         /\ (forall z, get d "number" = Some (VInt z) -> RoundSpec.number rnd = z).
Proof.
  exact (load_spec_numbers_by_position (F:=Q) "spec" test_spec_data
           test_rounds_data test_spec_loaded eq_refl eq_refl).
Defined.

(** ** agent.py: the reply of the language model and the prompt *)

Section AgentReply.
Context {F : Type} `{Arith F}.
Variable json_loads : string -> option (value F).
Variable float_of_string : string -> option F.
Variable float_of_int : Z -> option F.
Variable strip : string -> string.


Lemma bind_value {A B : Type} (a : A) (typed : bool)
    (k : A -> DebateAgent.attempt B) :
  DebateAgent.Value a typed ≫= k =
  match k a with
  | DebateAgent.Value b typed' => DebateAgent.Value b (typed && typed')
  | DebateAgent.Handled => DebateAgent.Handled
  | DebateAgent.Escapes e => DebateAgent.Escapes e
  end.
Proof. reflexivity. Qed.

Lemma gives_bind {A B : Type} (P : B -> Prop) (r : DebateAgent.attempt A)
    (k : A -> DebateAgent.attempt B) :
  (forall a, gives P (k a)) -> gives P (r ≫= k).
Proof.
  intros Hk. destruct r as [a typed| |e]; [|exact I|exact I].
  rewrite bind_value. specialize (Hk a). by destruct (k a).
Qed.

Lemma get_default_Some (d : dict F) (k : string) (v default : value F) :
  get d k = Some v -> DebateAgent.get_default d k default = v.
Proof. unfold DebateAgent.get_default. by intros ->. Qed.

Lemma get_default_None (d : dict F) (k : string) (default : value F) :
  get d k = None -> DebateAgent.get_default d k default = default.
Proof. unfold DebateAgent.get_default. by intros ->. Qed.

Lemma str_field_value (v : value F) : is_value (DebateAgent.str_field v).
Proof. destruct v; by do 2 eexists. Qed.

Lemma mapM_values {A B : Type} (f : A -> DebateAgent.attempt B) (l : list A) :
  Forall (fun x => is_value (f x)) l -> is_value (mapM f l).
Proof.
  induction 1 as [|x l (b & t & Hx) _ (bs & ts & IH)]; [by do 2 eexists|].
  cbn [mapM]. rewrite Hx, bind_value, IH, bind_value. by do 2 eexists.
Qed.

Lemma mapM_handled {A B : Type} (f : A -> DebateAgent.attempt B)
    (good : list A) (bad : A) (rest : list A) :
  Forall (fun x => is_value (f x)) good ->
  f bad = DebateAgent.Handled ->
  mapM f (good ++ bad :: rest) = DebateAgent.Handled.
Proof.
  intros Hgood Hbad.
  induction Hgood as [|x l (b & t & Hx) _ IH]; cbn [app mapM].
  - by rewrite Hbad.
  - by rewrite Hx, bind_value, IH.
Qed.

Lemma mapM_escapes {A B : Type} (f : A -> DebateAgent.attempt B)
    (good : list A) (bad : A) (rest : list A) (e : DebateAgent.uncaught) :
  Forall (fun x => is_value (f x)) good ->
  f bad = DebateAgent.Escapes e ->
  mapM f (good ++ bad :: rest) = DebateAgent.Escapes e.
Proof.
  intros Hgood Hbad.
  induction Hgood as [|x l (b & t & Hx) _ IH]; cbn [app mapM].
  - by rewrite Hbad.
  - by rewrite Hx, bind_value, IH.
Qed.

Lemma evidence_of_object (d : dict F) :
  is_value (DebateAgent.evidence_of (F:=F) (VDict d)).
Proof.
  unfold DebateAgent.evidence_of. cbn [DebateAgent.as_mapping].
  rewrite bind_value.
  destruct (str_field_value (DebateAgent.get_default d "source" (VStr "")))
    as (s & ts & ->).
  destruct (str_field_value (DebateAgent.get_default d "quote" (VStr "")))
    as (q & tq & ->).
  rewrite !bind_value. by do 2 eexists.
Qed.

Lemma claim_of_not_object (v : value F) :
  ~ is_object v -> DebateAgent.claim_of float_of_string float_of_int v = DebateAgent.Escapes DebateAgent.AttributeError.
Proof.
  intros Hv. destruct v; try reflexivity. destruct Hv. by eexists.
Qed.

Lemma claim_of_unparsable_confidence (c : dict F) (es : list (value F))
    (s : string) :
  DebateAgent.get_default c "evidence" (VList []) = VList es ->
  Forall is_object es ->
  get c "confidence" = Some (VStr s) ->
  float_of_string s = None ->
  DebateAgent.claim_of float_of_string float_of_int (VDict c) = DebateAgent.Handled.
Proof.
  intros Hev Hes Hconf Hs.
  unfold DebateAgent.claim_of. cbn [DebateAgent.as_mapping].
  rewrite bind_value, Hev. cbn [DebateAgent.iterate]. rewrite bind_value.
  destruct (mapM_values (DebateAgent.evidence_of (F:=F)) es) as (evs & te & ->).
  { eapply Forall_impl; [exact Hes|]. intros e [d ->]. apply evidence_of_object. }
  rewrite bind_value.
  destruct (str_field_value (DebateAgent.get_default c "id" (VStr "")))
    as (i & ti & ->).
  rewrite bind_value.
  destruct (str_field_value (DebateAgent.get_default c "text" (VStr "")))
    as (tx & tt & ->).
  rewrite bind_value.
  rewrite (get_default_Some c "confidence" _ _ Hconf).
  cbn [DebateAgent.to_float]. by rewrite Hs.
Qed.

(** X22. Whatever the reply of the language model says, a move
    [_parse_response] returns carries the move id and the round number of
    the call, the id of the agent, the clock's timestamp and no tokens, and
    is titled after the expert, or [Debate Synthesizer] for the synthesizer;
    the exceptions the [except] clause names never leave the function, and
    no exception at all leaves it for the synthesizer. *)
Theorem parse_response_keeps_call_arguments (self : DebateAgent.t)
    (text move_id : string) (round_num : Z) (now : string) :
  match DebateAgent.parse_response json_loads float_of_string float_of_int strip self text move_id round_num now with
  | DebateAgent.Value m _ =>
      Move.move_id m = move_id /\
      Move.agent_id m = DebateAgent.agent_id self /\
      Move.round m = round_num /\
      Move.timestamp m = now /\
      Move.input_tokens m = 0 /\ Move.output_tokens m = 0 /\
      Move.agent_title m =
        (if DebateAgent.is_synthesizer self then "Debate Synthesizer"
         else Expert.display_title (DebateAgent.expert self))
  | DebateAgent.Handled => False
  | DebateAgent.Escapes _ => DebateAgent.is_synthesizer self = false
  end.
Proof.
  unfold DebateAgent.parse_response.
  destruct (DebateAgent.is_synthesizer self); [by repeat split|].
  assert (gives (fun m : Move.t F =>
            Move.move_id m = move_id /\
            Move.agent_id m = DebateAgent.agent_id self /\
            Move.round m = round_num /\
            Move.timestamp m = now /\
            Move.input_tokens m = 0 /\ Move.output_tokens m = 0 /\
            Move.agent_title m = Expert.display_title (DebateAgent.expert self))
            (DebateAgent.parse_json json_loads float_of_string float_of_int strip self text move_id round_num now)) as Hgives.
  { unfold DebateAgent.parse_json.
    destruct (DebateAgent.json_text strip text) as [j|]; [|exact I].
    destruct (json_loads j) as [data|]; [|exact I].
    repeat (apply gives_bind; intros ?). by repeat split. }
  destruct (DebateAgent.parse_json json_loads float_of_string float_of_int strip self text move_id round_num now); [exact Hgives| |done].
  by repeat split.
Qed.

(** X23. One claim whose confidence is a text [float] rejects costs the
    whole reply: when the reply parses to an object whose claims are well
    formed up to such a claim, [_parse_response] returns the fallback move,
    of type [claim], with the first 3000 characters of the raw reply as its
    content, without any claim, the well-formed ones included, and without
    targets. *)
Theorem unparsable_confidence_discards_reply (self : DebateAgent.t)
    (text move_id : string) (round_num : Z) (now j : string)
    (data c : dict F) (good rest es : list (value F)) (s : string) :
  DebateAgent.is_synthesizer self = false ->
  DebateAgent.json_text strip text = Some j ->
  json_loads j = Some (VDict data) ->
  get data "claims" = Some (VList (good ++ VDict c :: rest)) ->
  Forall (fun g => is_value (DebateAgent.claim_of float_of_string float_of_int g)) good ->
  DebateAgent.get_default c "evidence" (VList []) = VList es ->
  Forall is_object es ->
  get c "confidence" = Some (VStr s) ->
  float_of_string s = None ->
  DebateAgent.parse_response json_loads float_of_string float_of_int strip self text move_id round_num now =
  DebateAgent.Value (fallback_move self text move_id round_num now) true.
Proof.
  intros Hself Hj Hdata Hclaims Hgood Hev Hes Hconf Hs.
  unfold DebateAgent.parse_response, DebateAgent.parse_json.
  rewrite Hself, Hj, Hdata. cbn [DebateAgent.as_mapping].
  rewrite bind_value, (get_default_Some data "claims" _ _ Hclaims).
  cbn [DebateAgent.iterate]. rewrite bind_value.
  rewrite (mapM_handled (DebateAgent.claim_of float_of_string float_of_int) good (VDict c) rest Hgood
             (claim_of_unparsable_confidence c es s Hev Hes Hconf Hs)).
  reflexivity.
Qed.

(** X24. A reply that is valid JSON but not an object, or whose claims
    hold, after well-formed ones, an element that is not an object, makes
    [_parse_response] raise [AttributeError], which its [except] clause does
    not catch: no fallback move is built. *)
Theorem reply_that_is_not_an_object_escapes (self : DebateAgent.t)
    (text move_id : string) (round_num : Z) (now j : string) :
  DebateAgent.is_synthesizer self = false ->
  DebateAgent.json_text strip text = Some j ->
  (forall v, json_loads j = Some v -> ~ is_object v ->
     DebateAgent.parse_response json_loads float_of_string float_of_int strip self text move_id round_num now =
     DebateAgent.Escapes DebateAgent.AttributeError) /\
  (forall data good bad rest,
     json_loads j = Some (VDict data) ->
     get data "claims" = Some (VList (good ++ bad :: rest)) ->
     Forall (fun g => is_value (DebateAgent.claim_of float_of_string float_of_int g)) good ->
     ~ is_object bad ->
     DebateAgent.parse_response json_loads float_of_string float_of_int strip self text move_id round_num now =
     DebateAgent.Escapes DebateAgent.AttributeError).
Proof.
  intros Hself Hj. split.
  - intros v Hv Hobj.
    unfold DebateAgent.parse_response, DebateAgent.parse_json.
    rewrite Hself, Hj, Hv.
    destruct v; try reflexivity. destruct Hobj. by eexists.
  - intros data good bad rest Hdata Hclaims Hgood Hbad.
    unfold DebateAgent.parse_response, DebateAgent.parse_json.
    rewrite Hself, Hj, Hdata. cbn [DebateAgent.as_mapping].
    rewrite bind_value, (get_default_Some data "claims" _ _ Hclaims).
    cbn [DebateAgent.iterate]. rewrite bind_value.
    by rewrite (mapM_escapes (DebateAgent.claim_of float_of_string float_of_int) good bad rest _ Hgood
                  (claim_of_not_object bad Hbad)).
Qed.

(** X25. An evidence object without a [source] is accepted in a reply and
    refused in a saved move: [_parse_response] reads it with the empty text
    as its source, whereas the [Evidence] call of [Move.from_dict], which
    passes the entries of the object as keyword arguments, raises on the
    same object. *)
Theorem reply_evidence_needs_no_source (e : dict F) :
  get e "source" = None ->
  (exists quote typed,
     DebateAgent.evidence_of (VDict e) =
     DebateAgent.Value (Evidence.mk "" quote) typed) /\
  fails (Evidence.init e).
Proof.
  intros Hsource. split.
  - unfold DebateAgent.evidence_of. cbn [DebateAgent.as_mapping].
    rewrite bind_value, (get_default_None e "source" _ Hsource).
    cbn [DebateAgent.str_field]. rewrite bind_value.
    destruct (str_field_value (DebateAgent.get_default e "quote" (VStr "")))
      as (q & tq & ->).
    rewrite bind_value. by do 2 eexists.
  - unfold Evidence.init.
    destruct (filter _ (keys e)); [|by eexists].
    rewrite Hsource. by eexists.
Qed.

End AgentReply.

Lemma unparsable_confidence_discards_reply_witness :
  DebateAgent.parse_response (F:=Q)
    (fun _ => Some (VDict test_reply)) (fun _ => None)
    (fun z => Some (inject_Z z)) (fun s => s)
    test_agent "reply" "M001" 1 "2026-01-01T00:00:00" =
  DebateAgent.Value
    (fallback_move test_agent "reply" "M001" 1 "2026-01-01T00:00:00") true.
Proof.
  apply (unparsable_confidence_discards_reply (F:=Q)
           (fun _ => Some (VDict test_reply)) (fun _ => None)
           (fun z => Some (inject_Z z)) (fun s => s)
           test_agent "reply" "M001" 1 "2026-01-01T00:00:00" "reply"
           test_reply
           [("id", VStr "M001_C2"); ("confidence", VStr "high")]
           [VDict [("id", VStr "M001_C1"); ("confidence", VFloat (fdec 9 10))]]
           [] [] "high");
    try reflexivity.
  - constructor; [|constructor]. do 2 eexists. reflexivity.
  - constructor.
Defined.

Lemma reply_that_is_not_an_object_escapes_witness :
  DebateAgent.parse_response (F:=Q)
    (fun _ => Some test_array_reply) (fun _ => None)
    (fun z => Some (inject_Z z)) (fun s => s)
    test_agent "reply" "M001" 1 "2026-01-01T00:00:00" =
  DebateAgent.Escapes DebateAgent.AttributeError /\
  DebateAgent.parse_response (F:=Q)
    (fun _ => Some (VDict test_text_claims_reply)) (fun _ => None)
    (fun z => Some (inject_Z z)) (fun s => s)
    test_agent "reply" "M001" 1 "2026-01-01T00:00:00" =
  DebateAgent.Escapes DebateAgent.AttributeError.
Proof.
  split.
  - apply (proj1 (reply_that_is_not_an_object_escapes (F:=Q)
                    (fun _ => Some test_array_reply) (fun _ => None)
                    (fun z => Some (inject_Z z)) (fun s => s)
                    test_agent "reply" "M001" 1 "2026-01-01T00:00:00" "reply"
                    eq_refl eq_refl) test_array_reply eq_refl).
    intros [d Hd]. discriminate Hd.
  - apply (proj2 (reply_that_is_not_an_object_escapes (F:=Q)
                    (fun _ => Some (VDict test_text_claims_reply))
                    (fun _ => None)
                    (fun z => Some (inject_Z z)) (fun s => s)
                    test_agent "reply" "M001" 1 "2026-01-01T00:00:00" "reply"
                    eq_refl eq_refl)
             test_text_claims_reply [] (VStr "Inflation falls") [] eq_refl
             eq_refl).
    + constructor.
    + intros [d Hd]. discriminate Hd.
Defined.

Lemma reply_evidence_needs_no_source_witness :
  (exists quote typed,
     DebateAgent.evidence_of (F:=Q) (VDict [("quote", VStr "q")]) =
     DebateAgent.Value (Evidence.mk "" quote) typed) /\
  fails (Evidence.init (F:=Q) [("quote", VStr "q")]).
Proof.
  exact (reply_evidence_needs_no_source (F:=Q) [("quote", VStr "q")] eq_refl).
Defined.

Section AgentPrompt.
Context {F : Type}.
Variable format_2f : F -> string.

(** X26. An expert is shown the last six moves only: the user prompt
    [_build_user_prompt] makes for an agent that is not the synthesizer is
    the same whatever moves precede the last six, so that an older move has
    no influence on the call. *)
Theorem expert_prompt_shows_last_six_moves (self : DebateAgent.t)
    (round_spec : RoundSpec.t) (problem_context : string)
    (older recent : list (Move.t F))
    (move_id memory_context synthesizer_prompt : string) :
  DebateAgent.is_synthesizer self = false ->
  length recent = 6%nat ->
  DebateAgent.build_user_prompt format_2f self round_spec problem_context
    (older ++ recent) move_id memory_context synthesizer_prompt =
  DebateAgent.build_user_prompt format_2f self round_spec problem_context
    recent move_id memory_context synthesizer_prompt.
Proof.
  intros Hself Hlen. unfold DebateAgent.build_user_prompt. rewrite Hself.
  assert (drop (length (older ++ recent) - 6) (older ++ recent) = recent)
    as Hdrop.
  { rewrite length_app, Hlen, Nat.add_sub. apply drop_app_length. }
  destruct (older ++ recent) as [|m ms] eqn:Hall.
  { apply app_eq_nil in Hall as [_ ->]. discriminate Hlen. }
  rewrite Hdrop.
  destruct recent as [|r rs]; [discriminate Hlen|].
  by rewrite Hlen, Nat.sub_diag.
Qed.

End AgentPrompt.

Lemma expert_prompt_shows_last_six_moves_witness :
  DebateAgent.build_user_prompt (fun _ : Q => "0.50") test_agent test_round2
    "Context" ([test_move; test_counter_move] ++ test_recent_moves)
    "M009" "" "" =
  DebateAgent.build_user_prompt (fun _ : Q => "0.50") test_agent test_round2
    "Context" test_recent_moves "M009" "" "".
Proof.
  apply (expert_prompt_shows_last_six_moves (fun _ : Q => "0.50") test_agent
           test_round2 "Context" [test_move; test_counter_move]
           test_recent_moves "M009" "" "");
    reflexivity.
Defined.
